(** * MindSpend Labs browser utilities: session cache, API facade, navigation

    A shallow embedding of the browser-side modules
      - [StorageManager]  (the local cache store and its cross-tab listener),
      - [AuthManager]     (frontend/utils/auth.js) and its older copy
        [AuthManagerLegacy],
      - [API]             (the result-envelope facade),
      - [Navigation]      (display-name resolution of the nav bar),
    as state-and-exception passing functions over a [World]: the browser's
    [localStorage], the events dispatched on [window], the requests issued to
    the hosted auth+database collaborator, and the rendered nav bar.

    The collaborator is external: it is a function from the history of
    requests and the current request to a reply, and every statement below
    quantifies over it.  What the platform supplies -- the JSON codec and
    the case mapping of strings -- is a parameter as well.  [console.*]
    output has no observable effect and is left out; timers only delay and
    are not modelled. *)

From Stdlib Require Import String Ascii List Bool Arith ZArith QArith Lia.
From stdpp Require Import base gmap strings list.
Import ListNotations.

Set Warnings "-register-all".

Local Open Scope string_scope.
Local Open Scope list_scope.

(** ** JavaScript values and string primitives *)

Module JS.

(** [hay.includes(needle)] *)
Fixpoint includes (hay needle : string) : bool :=
  if String.prefix needle hay then true
  else match hay with
       | EmptyString => false
       | String _ rest => includes rest needle
       end.

(** Folding one ASCII character: the capitals [A]..[Z] become [a]..[z],
    every other character is kept. *)
Definition lower_ascii (c : ascii) : ascii :=
  let n := nat_of_ascii c in
  if (65 <=? n)%nat && (n <=? 90)%nat then ascii_of_nat (n + 32) else c.

Fixpoint fold_ascii (s : string) : string :=
  match s with
  | EmptyString => EmptyString
  | String c rest => String (lower_ascii c) (fold_ascii rest)
  end.

(** The text holds ASCII characters only. *)
Fixpoint is_ascii (s : string) : bool :=
  match s with
  | EmptyString => true
  | String c rest => (nat_of_ascii c <? 128)%nat && is_ascii rest
  end.

(** [s.toLowerCase()] maps by the Unicode case tables, which belong to the
    platform: besides the ASCII capitals it folds every other cased
    character (the Kelvin sign U+212A becomes [k], for one).  It is a
    parameter of what lower-cases a text; all that is fixed here is its
    value on text made of ASCII characters only. *)
Class CaseMapping : Type := {
  toLowerCase : string -> string;
  toLowerCase_ascii : forall s, is_ascii s = true -> toLowerCase s = fold_ascii s
}.

(** [s.split(sep)[0]]: the characters before the first separator, the whole
    string when there is none. *)
Fixpoint split_head (sep : ascii) (s : string) : string :=
  match s with
  | EmptyString => EmptyString
  | String c rest =>
      if Ascii.eqb c sep then EmptyString else String c (split_head sep rest)
  end.

(** Truthiness of a string: only the empty string is falsy. *)
Definition truthy (s : string) : bool :=
  match s with EmptyString => false | _ => true end.

(** Truthiness of a string-or-null/undefined slot. *)
Definition truthy_opt (o : option string) : bool :=
  match o with Some s => truthy s | None => false end.

(** Data that crosses the facade untyped: caller arguments, table rows,
    the analysis blob. *)
Inductive Value : Type :=
| VUndefined
| VNull
| VBool (b : bool)
| VNum (q : Q)
| VStr (s : string)
| VArr (items : list Value)
| VObj (fields : list (string * Value)).

(** Thrown values.  [e.message] is what the catch blocks read.  Whatever is
    thrown is an object -- an [Error] of the platform or an error object of
    the collaborator -- whose [message] may be missing; neither the platform
    nor the client library throws [null] or [undefined]. *)
Inductive Exn : Type :=
| TypeError (what : string)
| SyntaxError (what : string)
| QuotaExceededError
| ErrorObject (message : option string).

Definition exn_message (e : Exn) : option string :=
  match e with
  | TypeError what => Some what
  | SyntaxError what => Some what
  | QuotaExceededError => Some "The quota has been exceeded."
  | ErrorObject m => m
  end.

Fixpoint assoc (k : string) (fields : list (string * Value)) : Value :=
  match fields with
  | [] => VUndefined
  | (k', v) :: rest => if String.eqb k k' then v else assoc k rest
  end.

End JS.
Export JS.

(** ** Computations: state passing with exceptions *)

Inductive Outcome (A : Type) : Type :=
| Return (a : A)
| Throw (e : Exn).
Arguments Return {A} a.
Arguments Throw {A} e.

(** [v.name] for an untyped value: reading a property of [undefined] or
    [null] throws, a missing property reads as [undefined]. *)
Definition get_prop (name : string) (v : Value) : Outcome Value :=
  match v with
  | VUndefined => Throw (TypeError ("Cannot read properties of undefined (reading '" ++ name ++ "')"))
  | VNull => Throw (TypeError ("Cannot read properties of null (reading '" ++ name ++ "')"))
  | VObj fields => Return (assoc name fields)
  | _ => Return VUndefined
  end.

(** [v[0]] *)
Definition get_first (v : Value) : Outcome Value :=
  match v with
  | VUndefined => Throw (TypeError "Cannot read properties of undefined (reading '0')")
  | VNull => Throw (TypeError "Cannot read properties of null (reading '0')")
  | VArr (x :: _) => Return x
  | VStr (String c _) => Return (VStr (String c EmptyString))
  | VObj fields => Return (assoc "0" fields)
  | _ => Return VUndefined
  end.

(** ** The collaborator's request and response contract *)

(** [{ id, email }] of the session user; an empty [email] stands for a
    missing one (both are falsy). *)
Record User : Type := { user_id : string; user_email : string }.

Record Session : Type := { access_token : string }.

(** A row of the [profiles] table as the navigation and the facade read it:
    text columns that may be null. *)
Record Profile : Type := {
  profile_id : string;
  profile_email : option string;
  username : option string;
  first_name : option string;
  last_name : option string
}.

(** The collaborator's error object [{ code, message }]. *)
Record ApiError : Type := { err_code : string; err_message : string }.

Inductive Modifier : Type :=
| Single
| OrderBy (column : string) (ascending : bool).

(** Every operation of the collaborator the modules consume. *)
Inductive Call : Type :=
| AuthGetUser
| AuthGetSession
| AuthSignUp (email password : string)
| AuthSignInWithPassword (email password : string)
| AuthSignOut
| AuthUpdateUser (password : string)
| AuthAdminDeleteUser (id : string)
| TableSelect (table : string) (filters : list (string * Value)) (modifier : Modifier)
| TableInsert (table : string) (row : list (string * Value)) (returning : bool)
| TableUpdate (table : string) (patch : Value) (filters : list (string * Value))
| TableDelete (table : string) (filters : list (string * Value)).

(** The uniform response shape [{ data, error }].  The auth endpoints answer
    with [data.user] / [data.session], a [profiles] query with a row, any
    other table query with untyped [data]; [count] is the number of rows the
    statement touched, which no caller in this repository reads. *)
Record Response : Type := {
  data_user : option User;
  data_session : option Session;
  data_profile : option Profile;
  data : Value;
  error : option ApiError;
  count : option nat
}.

(** A request settles with a response or rejects with a thrown value. *)
Inductive Reply : Type :=
| Resolves (r : Response)
| Rejects (e : Exn).

(** The collaborator: the reply to a request, given the requests before it. *)
Definition Collaborator : Type := list Call -> Call -> Reply.

(** ** The browser world *)

(** How a [CustomEvent] was constructed: without an init dictionary, or
    with [{ detail: v }]. *)
Inductive Detail : Type :=
| NoDetail
| DetailValue (v : Value).

(** A [CustomEvent] dispatched on [window]. *)
Record Event : Type := { event_type : string; detail : Detail }.

(** The markup [generateNavHTML] returns and [injectNav] assigns to
    [innerHTML], up to the fixed text of the template: which branch of the
    auth section it holds, and for the user menu the text [userName] that
    the template interpolates into [<span class="user-name">...</span>].
    The text goes in as it is, without escaping: the parser reads it as
    markup, so the span shows these very characters only when the text holds
    no markup of its own. *)
Inductive NavBar : Type :=
| UserMenu (userName_markup : string)
| SignInButton.

Record World : Type := {
  window_supabase : option Collaborator;   (* null until initSupabase succeeds *)
  localStorage : gmap string string;
  storage_quota : N;                       (* characters the store may hold *)
  dispatched : list Event;                 (* oldest first *)
  requests : list Call;                    (* oldest first *)
  AuthManager_defined : bool;              (* typeof AuthManager !== 'undefined' *)
  main_nav : option NavBar                 (* markup of document.querySelector('.main-nav') *)
}.

Definition with_localStorage (m : gmap string string) (w : World) : World :=
  {| window_supabase := window_supabase w; localStorage := m;
     storage_quota := storage_quota w; dispatched := dispatched w;
     requests := requests w; AuthManager_defined := AuthManager_defined w;
     main_nav := main_nav w |}.

Definition with_dispatched (evs : list Event) (w : World) : World :=
  {| window_supabase := window_supabase w; localStorage := localStorage w;
     storage_quota := storage_quota w; dispatched := evs;
     requests := requests w; AuthManager_defined := AuthManager_defined w;
     main_nav := main_nav w |}.

Definition with_requests (cs : list Call) (w : World) : World :=
  {| window_supabase := window_supabase w; localStorage := localStorage w;
     storage_quota := storage_quota w; dispatched := dispatched w;
     requests := cs; AuthManager_defined := AuthManager_defined w;
     main_nav := main_nav w |}.

Definition with_main_nav (n : option NavBar) (w : World) : World :=
  {| window_supabase := window_supabase w; localStorage := localStorage w;
     storage_quota := storage_quota w; dispatched := dispatched w;
     requests := requests w; AuthManager_defined := AuthManager_defined w;
     main_nav := n |}.

(** An [Action] runs in a world and returns or throws; effects made before a
    throw stay. *)
Definition Action (A : Type) : Type := World -> Outcome A * World.

Definition ret {A} (a : A) : Action A := fun w => (Return a, w).

Definition throw {A} (e : Exn) : Action A := fun w => (Throw e, w).

Definition bind {A B} (m : Action A) (k : A -> Action B) : Action B :=
  fun w => match m w with
           | (Return a, w') => k a w'
           | (Throw e, w') => (Throw e, w')
           end.

(** [try { body } catch (e) { handler e }] *)
Definition try_catch {A} (body : Action A) (handler : Exn -> Action A) : Action A :=
  fun w => match body w with
           | (Return a, w') => (Return a, w')
           | (Throw e, w') => handler e w'
           end.

(** Lift a pure step that may throw. *)
Definition lift {A} (o : Outcome A) : Action A := fun w => (o, w).

Declare Scope action_scope.
Delimit Scope action_scope with action.
Notation "'let*' x ':=' m 'in' k" := (bind m (fun x => k))
  (at level 10, x name, m at level 100, k at level 200) : action_scope.
Local Open Scope action_scope.

(** [await sb.<call>]: the request is recorded, the collaborator replies. *)
Definition request (sb : Collaborator) (c : Call) : Action Response :=
  fun w =>
    let w' := with_requests (requests w ++ [c]) w in
    match sb (requests w) c with
    | Resolves r => (Return r, w')
    | Rejects e => (Throw e, w')
    end.

(** The [detail] of [new CustomEvent(type, { detail: v })]: a member that is
    [undefined] counts as missing and takes the default of the init
    dictionary, [null]. *)
Definition detail_value (v : Value) : Value :=
  match v with VUndefined => VNull | _ => v end.

Definition detail_of (v : Value) : Detail := DetailValue (detail_value v).

(** [window.dispatchEvent(new CustomEvent(type, { detail }))] *)
Definition dispatchEvent (type : string) (d : Detail) : Action unit :=
  fun w => (Return tt,
            with_dispatched (dispatched w ++ [{| event_type := type; detail := d |}]) w).

(** *** Web storage *)

(** Characters held by the store: keys and values. *)
Definition storage_size (m : gmap string string) : nat :=
  map_fold (fun k v acc => String.length k + String.length v + acc) 0 m.

(** [localStorage.getItem(key)] *)
Definition getItem (key : string) : Action (option string) :=
  fun w => (Return (localStorage w !! key), w).

(** Whether the store has room for [key] holding [value]. *)
Definition storage_accepts (w : World) (key value : string) : bool :=
  (N.of_nat (storage_size (<[key := value]> (localStorage w))) <=? storage_quota w)%N.

(** [localStorage.setItem(key, value)]: throws when the quota is exceeded. *)
Definition setItem (key value : string) : Action unit :=
  fun w =>
    if storage_accepts w key value
    then (Return tt, with_localStorage (<[key := value]> (localStorage w)) w)
    else (Throw QuotaExceededError, w).

(** [localStorage.removeItem(key)] *)
Definition removeItem (key : string) : Action unit :=
  fun w => (Return tt, with_localStorage (delete key (localStorage w)) w).

(** [localStorage.clear()] *)
Definition clearStorage : Action unit :=
  fun w => (Return tt, with_localStorage ∅ w).

(** *** The platform's JSON codec *)

(** [JSON_stringify v] is the text [localStorage.setItem] receives for
    [JSON.stringify(v)]; [JSON_parse] is [JSON.parse].  Both belong to the
    platform and are a parameter of everything that serializes. *)
Class JSON : Type := {
  JSON_stringify : Value -> Outcome string;
  JSON_parse : string -> Outcome Value
}.

(** [v] is JSON-serializable: it has a JSON text, which is never empty and
    parses back to [v]. *)
Definition JSON_serializable `{JSON} (v : Value) : Prop :=
  exists s, JSON_stringify v = Return s /\ s <> "" /\ JSON_parse s = Return v.

(** ** Local cache store (src/unnamed/part_000) *)

(** The platform's storage-change notification: [e.key] is null after
    [localStorage.clear()], [e.newValue] is null after a removal. *)
Record StorageEvent : Type := {
  ev_key : option string;
  ev_newValue : option string
}.

(** [JSON.parse] converts its argument to a string first: null reads "null". *)
Definition to_text (o : option string) : string :=
  match o with Some s => s | None => "null" end.

Module StorageManager.

Definition KEY : string := "mindspend_unified_analysis".

Definition save `{JSON} (data : Value) : Action unit :=
  try_catch
    (let* text := lift (JSON_stringify data) in
     let* _ := setItem KEY text in
     dispatchEvent "storageUpdated" (detail_of data))
    (fun e => ret tt).

(** The "absent" result is [null]. *)
Definition load `{JSON} : Action Value :=
  try_catch
    (let* data := getItem KEY in
     if truthy_opt data
     then lift (JSON_parse (to_text data))
     else ret VNull)
    (fun e => ret VNull).

Definition clear : Action unit :=
  try_catch
    (let* _ := removeItem KEY in
     dispatchEvent "storageCleared" NoDetail)
    (fun e => ret tt).

Definition exists_ : Action bool :=
  let* data := getItem KEY in
  ret (match data with Some _ => true | None => false end).

(** [window.addEventListener('storage', function(e) { ... })]: the listener
    body.  It has no try/catch: a text that does not parse makes it throw.
    What [JSON.parse] returns is never [undefined], so the event carries the
    parsed value as it is. *)
Definition on_storage `{JSON} (e : StorageEvent) : Action unit :=
  if decide (ev_key e = Some KEY)
  then let* v := lift (JSON_parse (to_text (ev_newValue e))) in
       dispatchEvent "storageUpdated" (DetailValue v)
  else ret tt.

End StorageManager.

(** ** Result envelopes *)

Inductive Payload : Type :=
| NoPayload
| PayloadUser (user : User)                        (* { user } *)
| PayloadMerged (user : User) (profile : Profile)  (* { user: {...user, ...profile} } *)
| PayloadProfile (profile : Profile)               (* { data: profile } *)
| PayloadData (v : Value).                         (* { data } *)

(** [{ success, error?, requiresLogin?, message?, ... }].  [requiresLogin] is
    only ever written as [true]; [false] stands for a missing key.  [env_error]
    is [None] when the key is missing or holds [undefined]. *)
Record Envelope : Type := {
  success : bool;
  env_error : option string;
  requiresLogin : bool;
  message : option string;
  payload : Payload
}.

(** [{ success: false, error }] *)
Definition failure (msg : option string) : Envelope :=
  {| success := false; env_error := msg; requiresLogin := false;
     message := None; payload := NoPayload |}.

(** [{ success: false, error, requiresLogin: true }] *)
Definition failure_requiresLogin (msg : string) : Envelope :=
  {| success := false; env_error := Some msg; requiresLogin := true;
     message := None; payload := NoPayload |}.

(** [{ success: true, ... }] *)
Definition succeeded (msg : option string) (p : Payload) : Envelope :=
  {| success := true; env_error := None; requiresLogin := false;
     message := msg; payload := p |}.

(** [user.id] evaluated on the user a response carries: throws on null. *)
Definition user_of (u : option User) : Action User :=
  match u with
  | Some u => ret u
  | None => throw (TypeError "Cannot read properties of null (reading 'id')")
  end.

(** [throw error] for a collaborator error object. *)
Definition throw_error {A} (err : ApiError) : Action A :=
  throw (ErrorObject (Some (err_message err))).

(** ** Auth session manager (src/frontend/utils/auth.js) *)

Module AuthManager.

Definition getSupabase : Action (option Collaborator) :=
  fun w => (Return (window_supabase w), w).

Definition getCurrentUser : Action (option User) :=
  try_catch
    (let* sb := getSupabase in
     match sb with
     | None => ret None
     | Some sb =>
         let* r := request sb AuthGetUser in
         match error r with
         | Some err => throw_error err
         | None => ret (data_user r)
         end
     end)
    (fun e => ret None).

Definition getCurrentProfile : Action (option Profile) :=
  try_catch
    (let* user := getCurrentUser in
     match user with
     | None => ret None
     | Some user =>
         let* sb := getSupabase in
         match sb with
         | None => ret None
         | Some sb =>
             let* r := request sb (TableSelect "profiles" [("id", VStr (user_id user))] Single) in
             match error r with
             | Some err =>
                 if String.eqb (err_code err) "PGRST116" then ret None else ret None
             | None => ret (data_profile r)
             end
         end
     end)
    (fun e => ret None).

(** The row [register] inserts into [profiles]. *)
Definition profile_row (user : User) (email username firstName lastName : string)
  : list (string * Value) :=
  [("id", VStr (user_id user)); ("email", VStr email); ("username", VStr username);
   ("first_name", VStr firstName); ("last_name", VStr lastName)].

(** [userMessage] of the profile-failure branch. *)
Definition profile_user_message (msg : string) : string :=
  if includes msg "row-level security"
  then "Profile creation blocked by database policy. This is likely an RLS configuration issue. Check frontend/RLS_COMPLETE_FIX.md for solution."
  else if includes msg "duplicate"
  then "This email is already registered."
  else msg.

(** [await new Promise(resolve => setTimeout(resolve, ms))] *)
Definition wait (ms : nat) : Action unit := ret tt.

Definition register (email password username firstName lastName : string) : Action Envelope :=
  try_catch
    (let* sb := getSupabase in
     match sb with
     | None => ret (failure (Some "Supabase not initialized"))
     | Some sb =>
         (* Step 1: create the auth user *)
         let* r := request sb (AuthSignUp email password) in
         match error r with
         | Some signUpError => ret (failure (Some (err_message signUpError)))
         | None =>
             let* user := user_of (data_user r) in
             (* Step 2: wait briefly for the session *)
             let* s := request sb AuthGetSession in
             let* _ := match error s, data_session s with
                       | None, Some _ => ret tt
                       | _, _ => wait 1500
                       end in
             (* Step 3: create the profile *)
             let* p := request sb (TableInsert "profiles"
                                     (profile_row user email username firstName lastName) false) in
             match error p with
             | Some profileError =>
                 let userMessage := profile_user_message (err_message profileError) in
                 (* clean up the auth user since profile creation failed *)
                 let* _ := try_catch
                             (let* _ := request sb (AuthAdminDeleteUser (user_id user)) in ret tt)
                             (fun e => ret tt) in
                 ret (failure (Some userMessage))
             | None => ret (succeeded None (PayloadUser user))
             end
         end
     end)
    (fun e => ret (failure (exn_message e))).

Definition clearCurrentUser : Action unit :=
  try_catch
    (let* _ := removeItem "auth_user" in
     let* _ := removeItem "userProfile" in
     dispatchEvent "authUserCleared" NoDetail)
    (fun e => ret tt).

Definition logout : Action Envelope :=
  try_catch
    (let* sb := getSupabase in
     match sb with
     | None => ret (failure (Some "Supabase not initialized"))
     | Some sb =>
         let* r := request sb AuthSignOut in
         match error r with
         | Some err => throw_error err
         | None =>
             let* _ := clearCurrentUser in
             let* _ := dispatchEvent "authUserCleared" NoDetail in
             ret (succeeded None NoPayload)
         end
     end)
    (fun e => ret (failure (exn_message e))).

Definition isAuthenticated : Action bool :=
  let* user := getCurrentUser in
  ret (match user with Some _ => true | None => false end).

(** [errorMsg] of the update-failure branch of [changePassword]. *)
Definition update_error_message `{CaseMapping} (msg : string) : string :=
  let errorMsg := if truthy msg then msg else "Failed to update password" in
  if includes (toLowerCase errorMsg) "same"
  then "New password must be different from your current password"
  else if includes (toLowerCase errorMsg) "password"
  then "Password update failed. Please ensure your password meets all requirements."
  else if includes (toLowerCase errorMsg) "network" || includes (toLowerCase errorMsg) "connection"
  then "Connection error. Please check your internet and try again."
  else errorMsg.

(** [errorMsg] of the catch block of [changePassword]. *)
Definition unexpected_error_message `{CaseMapping} (e : Exn) : string :=
  let errorMsg := if truthy_opt (exn_message e)
                  then to_text (exn_message e)
                  else "An unexpected error occurred" in
  if includes (toLowerCase errorMsg) "network" || includes (toLowerCase errorMsg) "fetch"
  then "Network connection error. Please check your internet connection."
  else errorMsg.

Definition changePassword `{CaseMapping} (currentPassword newPassword : string)
  : Action Envelope :=
  try_catch
    (let* sb := getSupabase in
     match sb with
     | None => ret (failure (Some "Supabase not initialized"))
     | Some sb =>
         let* r := request sb AuthGetUser in
         match error r, data_user r with
         | None, Some user =>
             (* Step 1: verify the current password by re-authenticating *)
             let* s := request sb (AuthSignInWithPassword (user_email user) currentPassword) in
             match error s with
             | Some signInError =>
                 ret (failure (Some "Current password is incorrect. Please try again."))
             | None =>
                 (* Step 2: update to the new password *)
                 let* u := request sb (AuthUpdateUser newPassword) in
                 match error u with
                 | Some updateError =>
                     ret (failure (Some (update_error_message (err_message updateError))))
                 | None =>
                     ret (succeeded (Some "Password updated successfully") NoPayload)
                 end
             end
         | _, _ => ret (failure_requiresLogin "Not authenticated. Please login again.")
         end
     end)
    (fun e => ret (failure (Some (unexpected_error_message e)))).

Definition updateProfile (profileData : Value) : Action Envelope :=
  try_catch
    (let* sb := getSupabase in
     match sb with
     | None => ret (failure (Some "Supabase not initialized"))
     | Some sb =>
         let* user := getCurrentUser in
         match user with
         | None => ret (failure_requiresLogin "Not authenticated")
         | Some user =>
             let* r := request sb (TableUpdate "profiles" profileData [("id", VStr (user_id user))]) in
             match error r with
             | Some err => ret (failure (Some (err_message err)))
             | None => ret (succeeded None NoPayload)
             end
         end
     end)
    (fun e => ret (failure (exn_message e))).

End AuthManager.

(** ** The older copy of the manager (src/unnamed/part_001)

    [getSupabase], [getCurrentUser], [getCurrentProfile], [logout],
    [updateProfile] and [clearCurrentUser] are the same text as in
    frontend/utils/auth.js; [register] and [changePassword] differ. *)

Module AuthManagerLegacy.

Definition register (email password username firstName lastName : string) : Action Envelope :=
  try_catch
    (let* sb := AuthManager.getSupabase in
     match sb with
     | None => ret (failure (Some "Supabase not initialized"))
     | Some sb =>
         (* Step 1: create the auth user *)
         let* r := request sb (AuthSignUp email password) in
         match error r with
         | Some signUpError => ret (failure (Some (err_message signUpError)))
         | None =>
             (* Step 2: create the profile *)
             let* user := user_of (data_user r) in
             let* p := request sb (TableInsert "profiles"
                                     (AuthManager.profile_row user email username firstName lastName)
                                     false) in
             match error p with
             | Some profileError => ret (failure (Some (err_message profileError)))
             | None => ret (succeeded None (PayloadUser user))
             end
         end
     end)
    (fun e => ret (failure (exn_message e))).

Definition changePassword (currentPassword newPassword : string) : Action Envelope :=
  try_catch
    (let* sb := AuthManager.getSupabase in
     match sb with
     | None => ret (failure (Some "Supabase not initialized"))
     | Some sb =>
         let* user := AuthManager.getCurrentUser in
         match user with
         | None => ret (failure_requiresLogin "Not authenticated")
         | Some user =>
             (* first verify the current password by re-authenticating *)
             let* s := request sb (AuthSignInWithPassword (user_email user) currentPassword) in
             match error s with
             | Some signInError => ret (failure (Some "Current password is incorrect"))
             | None =>
                 let* u := request sb (AuthUpdateUser newPassword) in
                 match error u with
                 | Some updateError => ret (failure (Some (err_message updateError)))
                 | None => ret (succeeded None NoPayload)
                 end
             end
         end
     end)
    (fun e => ret (failure (exn_message e))).

End AuthManagerLegacy.

(** ** API facade (the api.js part of src/frontend/utils/rls-debug.js) *)

Module API.

Definition getSupabase : Action (option Collaborator) :=
  fun w => (Return (window_supabase w), w).

Definition getProfile : Action Envelope :=
  try_catch
    (let* user := AuthManager.getCurrentUser in
     match user with
     | None => ret (failure (Some "Not authenticated"))
     | Some user =>
         let* profile := AuthManager.getCurrentProfile in
         match profile with
         | None => ret (failure (Some "Profile not found"))
         | Some profile => ret (succeeded None (PayloadMerged user profile))
         end
     end)
    (fun e => ret (failure (exn_message e))).

Definition getUserProfile : Action Envelope :=
  try_catch
    (let* profile := AuthManager.getCurrentProfile in
     match profile with
     | None => ret (failure (Some "Profile not found"))
     | Some profile => ret (succeeded None (PayloadProfile profile))
     end)
    (fun e => ret (failure (exn_message e))).

Definition updateUserProfile (profileData : Value) : Action Envelope :=
  try_catch
    (AuthManager.updateProfile profileData)
    (fun e => ret (failure (exn_message e))).

Definition getMetrics : Action Envelope :=
  try_catch
    (let* user := AuthManager.getCurrentUser in
     match user with
     | None => ret (failure_requiresLogin "Not authenticated")
     | Some user =>
         let* sb := getSupabase in
         match sb with
         | None => ret (failure (Some "Supabase not initialized"))
         | Some sb =>
             let* r := request sb (TableSelect "metrics" [("user_id", VStr (user_id user))]
                                     (OrderBy "created_at" false)) in
             match error r with
             | Some err => ret (failure (Some (err_message err)))
             | None => ret (succeeded None (PayloadData (data r)))
             end
         end
     end)
    (fun e => ret (failure (exn_message e))).

(** The row [addMetric] inserts: the owner comes from the session user, the
    three other columns from the caller's object. *)
Definition metric_row (user : User) (category value description : Value)
  : list (string * Value) :=
  [("user_id", VStr (user_id user)); ("category", category);
   ("value", value); ("description", description)].

Definition addMetric (metricData : Value) : Action Envelope :=
  try_catch
    (let* user := AuthManager.getCurrentUser in
     match user with
     | None => ret (failure_requiresLogin "Not authenticated")
     | Some user =>
         let* sb := getSupabase in
         match sb with
         | None => ret (failure (Some "Supabase not initialized"))
         | Some sb =>
             let* category := lift (get_prop "category" metricData) in
             let* value := lift (get_prop "value" metricData) in
             let* description := lift (get_prop "description" metricData) in
             let* r := request sb (TableInsert "metrics"
                                     (metric_row user category value description) true) in
             match error r with
             | Some err => ret (failure (Some (err_message err)))
             | None =>
                 let* first := lift (get_first (data r)) in
                 ret (succeeded None (PayloadData first))
             end
         end
     end)
    (fun e => ret (failure (exn_message e))).

Definition deleteMetric (metricId : Value) : Action Envelope :=
  try_catch
    (let* user := AuthManager.getCurrentUser in
     match user with
     | None => ret (failure_requiresLogin "Not authenticated")
     | Some user =>
         let* sb := getSupabase in
         match sb with
         | None => ret (failure (Some "Supabase not initialized"))
         | Some sb =>
             let* r := request sb (TableDelete "metrics"
                                     [("id", metricId); ("user_id", VStr (user_id user))]) in
             match error r with
             | Some err => ret (failure (Some (err_message err)))
             | None => ret (succeeded None NoPayload)
             end
         end
     end)
    (fun e => ret (failure (exn_message e))).

End API.

(** ** Navigation component (src/frontend/utils/navigation.js) *)

(** The fields of the [Navigation] object that name resolution reads and
    writes; [displayName] starts out undefined. *)
Record Nav : Type := {
  nav_user : option User;
  nav_displayName : option string
}.

Module Navigation.

(** The object literal: [user: null], no [displayName]. *)
Definition initial : Nav := {| nav_user := None; nav_displayName := None |}.

Definition set_displayName (name : string) (nav : Nav) : Nav :=
  {| nav_user := nav_user nav; nav_displayName := Some name |}.

Definition set_user (u : option User) (nav : Nav) : Nav :=
  {| nav_user := u; nav_displayName := nav_displayName nav |}.

(** [this.user !== null] *)
Definition isAuthenticated (nav : Nav) : bool :=
  match nav_user nav with Some _ => true | None => false end.

(** [typeof AuthManager !== 'undefined'] *)
Definition AuthManager_is_defined : Action bool :=
  fun w => (Return (AuthManager_defined w), w).

(** [this.user && this.user.email] *)
Definition user_has_email (nav : Nav) : option string :=
  match nav_user nav with
  | Some u => if truthy (user_email u) then Some (user_email u) else None
  | None => None
  end.

(** The final fallback of [loadUserProfileNameData]. *)
Definition final_fallback (nav : Nav) : Nav :=
  match user_has_email nav with
  | Some email => set_displayName (split_head "@" email) nav
  | None => set_displayName "Guest" nav
  end.

Definition loadUserProfileNameData (nav : Nav) : Action Nav :=
  try_catch
    ((* first try localStorage for speed *)
     let* storedFirstName := getItem "mindspend_firstName" in
     let* storedLastName := getItem "mindspend_lastName" in
     let* storedUsername := getItem "mindspend_username" in
     if truthy_opt storedFirstName && truthy_opt storedLastName
     then ret (set_displayName (to_text storedFirstName ++ " " ++ to_text storedLastName) nav)
     else if truthy_opt storedFirstName
     then ret (set_displayName (to_text storedFirstName) nav)
     else if truthy_opt storedUsername
     then ret (set_displayName (to_text storedUsername) nav)
     else
       (* fallback: load from the collaborator *)
       let* defined := AuthManager_is_defined in
       if isAuthenticated nav && defined
       then
         let* profile := AuthManager.getCurrentProfile in
         match profile with
         | Some profile =>
             if truthy_opt (first_name profile) && truthy_opt (last_name profile)
             then ret (set_displayName (to_text (first_name profile) ++ " "
                                          ++ to_text (last_name profile)) nav)
             else if truthy_opt (first_name profile)
             then ret (set_displayName (to_text (first_name profile)) nav)
             else if truthy_opt (username profile)
             then ret (set_displayName (to_text (username profile)) nav)
             else match user_has_email nav with
                  | Some email => ret (set_displayName (split_head "@" email) nav)
                  | None => ret nav
                  end
         | None => ret (final_fallback nav)
         end
       else ret (final_fallback nav))
    (fun e => ret (set_displayName "Guest" nav)).

(** [userName] of [generateNavHTML], and the branch of the template that is
    chosen: the user menu has [userName] interpolated (unescaped), the
    sign-in button has no name. *)
Definition userName (nav : Nav) : string :=
  if truthy_opt (nav_displayName nav)
  then to_text (nav_displayName nav)
  else if isAuthenticated nav
       then match user_has_email nav with
            | Some email => split_head "@" email
            | None => "Guest"
            end
       else "Guest".

Definition generateNavHTML (nav : Nav) : NavBar :=
  if isAuthenticated nav then UserMenu (userName nav) else SignInButton.

(** [navElement.innerHTML = this.generateNavHTML()], inserted at the top of
    the body unless a [.main-nav] is there already. *)
Definition injectNav (nav : Nav) : Action unit :=
  fun w =>
    match main_nav w with
    | Some _ => (Return tt, w)
    | None => (Return tt, with_main_nav (Some (generateNavHTML nav)) w)
    end.

Definition init (nav : Nav) : Action Nav :=
  (* load the profile name before generating the HTML *)
  let* nav := loadUserProfileNameData nav in
  (* check whether the user is authenticated before injecting the nav *)
  let* defined := AuthManager_is_defined in
  let* nav := (if defined
               then let* u := AuthManager.getCurrentUser in ret (set_user u nav)
               else ret nav) in
  let* _ := injectNav nav in
  ret nav.

End Navigation.

(** ** Specification vocabulary *)

(** The user [AuthManager.getCurrentUser] finds: none when the client is not
    initialised, when the lookup rejects, reports an error or carries no
    user. *)
Definition session_user (w : World) : option User :=
  match window_supabase w with
  | None => None
  | Some sb =>
      match sb (requests w) AuthGetUser with
      | Resolves r => match error r with None => data_user r | Some _ => None end
      | Rejects _ => None
      end
  end.

(** The request the session lookup itself sends. *)
Definition session_lookup (w : World) : list Call :=
  match window_supabase w with Some _ => [AuthGetUser] | None => [] end.

(** The world after the session lookup. *)
Definition after_lookup (w : World) : World :=
  match window_supabase w with
  | Some _ => with_requests (requests w ++ [AuthGetUser]) w
  | None => w
  end.

(** The six operations of the facade that the envelope rule is stated for. *)
Inductive Operation : Type :=
| GetProfile
| GetUserProfile
| GetMetrics
| AddMetric (metricData : Value)
| DeleteMetric (metricId : Value)
| UpdateUserProfile (profileData : Value).

Definition run_operation (op : Operation) : Action Envelope :=
  match op with
  | GetProfile => API.getProfile
  | GetUserProfile => API.getUserProfile
  | GetMetrics => API.getMetrics
  | AddMetric metricData => API.addMetric metricData
  | DeleteMetric metricId => API.deleteMetric metricId
  | UpdateUserProfile profileData => API.updateUserProfile profileData
  end.

(** [{ success: false, error: 'Not authenticated', requiresLogin: true }] *)
Definition not_authenticated : Envelope := failure_requiresLogin "Not authenticated".

(** The user identifier a table request is scoped by: the [user_id] filter of
    a query or deletion, the [user_id] column of an inserted row. *)
Definition scoped_user_id (c : Call) : option Value :=
  match c with
  | TableSelect _ filters _ => Some (assoc "user_id" filters)
  | TableInsert _ row _ => Some (assoc "user_id" row)
  | TableUpdate _ _ filters => Some (assoc "user_id" filters)
  | TableDelete _ filters => Some (assoc "user_id" filters)
  | _ => None
  end.

Definition is_table_request (c : Call) : bool :=
  match scoped_user_id c with Some _ => true | None => false end.

(** The requests an action adds to the log. *)
Definition issued {A} (m : Action A) (w : World) : list Call :=
  drop (length (requests w)) (requests (snd (m w))).

(** The events an action dispatches. *)
Definition broadcast {A} (m : Action A) (w : World) : list Event :=
  drop (length (dispatched w)) (dispatched (snd (m w))).

(** A request is scoped by the session: if it is a table request, somebody is
    signed in and the request carries that user's id. *)
Definition scoped_by_session (w : World) (c : Call) : Prop :=
  is_table_request c = true ->
  exists u, session_user w = Some u /\ scoped_user_id c = Some (VStr (user_id u)).

(** [answers sb history script]: starting from [history], the collaborator
    gives each request of the script the reply listed with it. *)
Fixpoint answers (sb : Collaborator) (history : list Call) (script : list (Call * Reply)) : Prop :=
  match script with
  | [] => True
  | (c, reply) :: rest => sb history c = reply /\ answers sb (history ++ [c]) rest
  end.

(** The keys that cache identity, profile and display fields. *)
Definition cache_keys : list string :=
  ["auth_user"; "userProfile"; "currentUser";
   "mindspend_firstName"; "mindspend_lastName"; "mindspend_username"].

(** The client is ANONYMOUS when none of them is set. *)
Definition ANONYMOUS (w : World) : Prop :=
  Forall (fun k => localStorage w !! k = None) cache_keys.

(** No display field is cached: the three reads of
    [loadUserProfileNameData] all come back falsy. *)
Definition no_cached_name (w : World) : Prop :=
  truthy_opt (localStorage w !! "mindspend_firstName") = false /\
  truthy_opt (localStorage w !! "mindspend_username") = false.


(** The requests of a registration whose profile insert is refused. *)
Definition rollback_requests (u : User) (email password username firstName lastName : string)
  : list Call :=
  [AuthSignUp email password; AuthGetSession;
   TableInsert "profiles" (AuthManager.profile_row u email username firstName lastName) false;
   AuthAdminDeleteUser (user_id u)].

Definition authUserCleared : Event := {| event_type := "authUserCleared"; detail := NoDetail |}.

Definition storageUpdated (v : Value) : Event :=
  {| event_type := "storageUpdated"; detail := DetailValue v |}.

(** ** Scenarios: concrete collaborators and worlds *)

Definition response_ok : Response :=
  {| data_user := None; data_session := None; data_profile := None;
     data := VNull; error := None; count := None |}.

Definition response_error (code msg : string) : Response :=
  {| data_user := None; data_session := None; data_profile := None;
     data := VNull; error := Some {| err_code := code; err_message := msg |};
     count := None |}.

Definition response_user (u : User) : Response :=
  {| data_user := Some u; data_session := Some {| access_token := "token" |};
     data_profile := None; data := VNull; error := None; count := None |}.

(** A statement that ran without error and touched no row. *)
Definition response_no_rows : Response :=
  {| data_user := None; data_session := None; data_profile := None;
     data := VNull; error := None; count := Some 0 |}.

(** A page with the client library loaded and a fresh request log. *)
Definition browser (sb : option Collaborator) (store : gmap string string) : World :=
  {| window_supabase := sb; localStorage := store; storage_quota := 5242880;
     dispatched := []; requests := []; AuthManager_defined := true;
     main_nav := None |}.

(** A page whose store has no room left (a zero quota, as in some private
    browsing modes). *)
Definition full_browser : World :=
  {| window_supabase := None; localStorage := ∅; storage_quota := 0;
     dispatched := []; requests := []; AuthManager_defined := true;
     main_nav := None |}.

(** Nobody is signed in: the session lookup reports the missing session,
    sign-out has nothing to invalidate. *)
Definition signed_out_collaborator : Collaborator :=
  fun _ c =>
    match c with
    | AuthGetUser => Resolves (response_error "session_missing" "Auth session missing!")
    | _ => Resolves response_ok
    end.

(** The collaborator cannot be reached: every request reports the failure. *)
Definition unreachable_collaborator : Collaborator :=
  fun _ _ => Resolves (response_error "network" "Failed to fetch").

Definition alice : User := {| user_id := "u1"; user_email := "a@x.com" |}.

Definition bob : User := {| user_id := "u2"; user_email := "bob@example.com" |}.

(** Alice is signed in; every other request succeeds. *)
Definition alice_collaborator : Collaborator :=
  fun _ c =>
    match c with
    | AuthGetUser => Resolves (response_user alice)
    | _ => Resolves response_ok
    end.

(** Bob is signed in and has no profile row; deleting touches no row. *)
Definition bob_collaborator : Collaborator :=
  fun _ c =>
    match c with
    | AuthGetUser | AuthSignInWithPassword _ _ => Resolves (response_user bob)
    | TableSelect "profiles" _ Single =>
        Resolves (response_error "PGRST116" "JSON object requested, multiple (or no) rows returned")
    | TableDelete _ _ => Resolves response_no_rows
    | _ => Resolves response_ok
    end.

(** Bob is signed in; the collaborator rejects the password he typed. *)
Definition wrong_password_collaborator : Collaborator :=
  fun _ c =>
    match c with
    | AuthGetUser => Resolves (response_user bob)
    | AuthSignInWithPassword _ _ =>
        Resolves (response_error "invalid_credentials" "Invalid login credentials")
    | _ => Resolves response_ok
    end.

Definition rls_refusal : ApiError :=
  {| err_code := "42501";
     err_message := "new row violates row-level security policy for table profiles" |}.

(** Sign-up creates Alice, the profile insert is refused by the row-level
    policy, and the browser client may not delete users. *)
Definition refusing_collaborator : Collaborator :=
  fun _ c =>
    match c with
    | AuthSignUp _ _ => Resolves (response_user alice)
    | AuthGetSession => Resolves (response_user alice)
    | TableInsert "profiles" _ _ =>
        Resolves (response_error (err_code rls_refusal) (err_message rls_refusal))
    | AuthAdminDeleteUser _ => Resolves (response_error "not_admin" "User not allowed")
    | _ => Resolves response_ok
    end.

(** What a signed-in page of Alice holds in local storage. *)
Definition alice_cache : gmap string string :=
  list_to_map
    [("auth_user", "alice-session"); ("userProfile", "alice-profile");
     ("currentUser", "alice-session"); ("mindspend_firstName", "Alice");
     ("mindspend_lastName", "Liddell"); ("mindspend_username", "alice")].

(** [{category: 'food', value: 12.5, description: 'lunch'}] *)
Definition lunch : Value :=
  VObj [("category", VStr "food"); ("value", VNum (25 # 2)); ("description", VStr "lunch")].

(** The same metric with a forged owner. *)
Definition forged_lunch : Value :=
  VObj [("user_id", VStr "u1"); ("category", VStr "food");
        ("value", VNum (25 # 2)); ("description", VStr "lunch")].

(** The codec restricted to the literals [null], [true] and [false]: enough
    to run the store on concrete values. *)
Definition literal_stringify (v : Value) : Outcome string :=
  match v with
  | VUndefined => Return "undefined"
  | VNull => Return "null"
  | VBool true => Return "true"
  | VBool false => Return "false"
  | _ => Throw (TypeError "not a literal")
  end.

Definition literal_parse (s : string) : Outcome Value :=
  if String.eqb s "null" then Return VNull
  else if String.eqb s "true" then Return (VBool true)
  else if String.eqb s "false" then Return (VBool false)
  else Throw (SyntaxError "Unexpected token").

Definition literal_JSON : JSON :=
  {| JSON_stringify := literal_stringify; JSON_parse := literal_parse |}.

(** * The remaining functions of the modules *)

(** ** Typed records as JavaScript objects *)

Definition string_or_null (o : option string) : Value :=
  match o with Some s => VStr s | None => VNull end.

(** The object a [User] stands for; [null] when there is none. *)
Definition user_value (u : option User) : Value :=
  match u with
  | Some u => VObj [("id", VStr (user_id u)); ("email", VStr (user_email u))]
  | None => VNull
  end.

(** The row a [Profile] stands for; [null] when there is none. *)
Definition profile_value (p : option Profile) : Value :=
  match p with
  | Some p =>
      VObj [("id", VStr (profile_id p)); ("email", string_or_null (profile_email p));
            ("username", string_or_null (username p));
            ("first_name", string_or_null (first_name p));
            ("last_name", string_or_null (last_name p))]
  | None => VNull
  end.

(** [{ success, error? }] of [login], with the two keys [user] and [profile]
    it adds on success. *)
Record LoginEnvelope : Type := {
  login_base : Envelope;
  login_session : option (option User * option Profile)
}.

Definition login_failure (msg : option string) : LoginEnvelope :=
  {| login_base := failure msg; login_session := None |}.

(** [value !== null] *)
Definition is_not_null (v : Value) : bool :=
  match v with VNull => false | _ => true end.

(** ** Auth session manager: login, tokens and the local session
    (src/frontend/utils/auth.js; the same text in src/unnamed/part_001) *)

Module AuthManagerSession.

Definition storeUserData `{JSON} (user : option User) (profile : option Profile) : Action unit :=
  let* u := lift (JSON_stringify (user_value user)) in
  let* _ := setItem "currentUser" u in
  let* p := lift (JSON_stringify (profile_value profile)) in
  setItem "userProfile" p.

(** [{ user, profile }]: each is the parsed text, or null when the key is
    unset or empty.  There is no try/catch here. *)
Definition getCachedUserData `{JSON} : Action (Value * Value) :=
  let* user := getItem "currentUser" in
  let* profile := getItem "userProfile" in
  let* u := (if truthy_opt user then lift (JSON_parse (to_text user)) else ret VNull) in
  let* p := (if truthy_opt profile then lift (JSON_parse (to_text profile)) else ret VNull) in
  ret (u, p).

Definition login `{JSON} (email password : string) : Action LoginEnvelope :=
  try_catch
    (let* sb := AuthManager.getSupabase in
     match sb with
     | None => ret (login_failure (Some "Supabase not initialized"))
     | Some sb =>
         let* r := request sb (AuthSignInWithPassword email password) in
         match error r with
         | Some err => ret (login_failure (Some (err_message err)))
         | None =>
             let user := data_user r in
             (* get the user profile *)
             let* profile := AuthManager.getCurrentProfile in
             (* store in localStorage for quick access *)
             let* _ := storeUserData user profile in
             let* _ := dispatchEvent "authUserUpdated"
                         (DetailValue (VObj [("user", user_value user);
                                             ("profile", profile_value profile)])) in
             ret {| login_base := succeeded None NoPayload;
                    login_session := Some (user, profile) |}
         end
     end)
    (fun e => ret (login_failure (exn_message e))).

(** [session?.access_token || null] *)
Definition getAccessToken : Action (option string) :=
  try_catch
    (let* sb := AuthManager.getSupabase in
     match sb with
     | None => ret None
     | Some sb =>
         let* r := request sb AuthGetSession in
         match error r with
         | Some err => throw_error err
         | None =>
             ret (match data_session r with
                  | Some session =>
                      if truthy (access_token session) then Some (access_token session) else None
                  | None => None
                  end)
         end
     end)
    (fun e => ret None).

Definition updatePasswordWithToken (newPassword : string) : Action Envelope :=
  try_catch
    (let* sb := AuthManager.getSupabase in
     match sb with
     | None => ret (failure (Some "Supabase not initialized"))
     | Some sb =>
         let* r := request sb (AuthUpdateUser newPassword) in
         match error r with
         | Some err => ret (failure (Some (err_message err)))
         | None => ret (succeeded None NoPayload)
         end
     end)
    (fun e => ret (failure (exn_message e))).

(** The [console.log] of [setCurrentUser] reads [userData.email], which
    throws for null and undefined after the item has been written. *)
Definition setCurrentUser `{JSON} (userData : Value) : Action unit :=
  try_catch
    (let* text := lift (JSON_stringify userData) in
     let* _ := setItem "auth_user" text in
     let* _ := lift (get_prop "email" userData) in
     dispatchEvent "authUserUpdated" (DetailValue userData))
    (fun e => ret tt).

Definition getCurrentUserLocal `{JSON} : Action Value :=
  try_catch
    (let* user := getItem "auth_user" in
     if truthy_opt user
     then lift (JSON_parse (to_text user))
     else ret VNull)
    (fun e => ret VNull).

Definition checkAuth `{JSON} : Action bool :=
  let* user := getCurrentUserLocal in
  ret (is_not_null user).

(** The callback [initialize] hands to [onAuthStateChange]: [session] is the
    user of the session the collaborator announces, if any. *)
Definition on_auth_state_change `{JSON} (event : string) (session : option User) : Action unit :=
  match session with
  | Some user =>
      if String.eqb event "SIGNED_IN" then storeUserData (Some user) None
      else if String.eqb event "SIGNED_OUT" then AuthManager.clearCurrentUser
      else ret tt
  | None =>
      if String.eqb event "SIGNED_OUT" then AuthManager.clearCurrentUser
      else ret tt
  end.

End AuthManagerSession.

(** ** API facade: the password operations *)

Module APIPassword.

Definition changePassword `{CaseMapping} (currentPassword newPassword : string)
  : Action Envelope :=
  try_catch
    (AuthManager.changePassword currentPassword newPassword)
    (fun e => ret (failure (exn_message e))).

Definition updatePasswordWithToken (newPassword : string) : Action Envelope :=
  try_catch
    (AuthManagerSession.updatePasswordWithToken newPassword)
    (fun e => ret (failure (exn_message e))).

End APIPassword.

(** ** The console debug helper (the first part of src/frontend/utils/rls-debug.js) *)

Module RLSDebug.

(** [window.supabase.<member>] without a guard: throws when the client is
    null. *)
Definition window_supabase_member (member : string) : Action Collaborator :=
  fun w =>
    match window_supabase w with
    | Some sb => (Return sb, w)
    | None => (Throw (TypeError ("Cannot read properties of null (reading '" ++ member ++ "')")), w)
    end.

Definition testSupabaseInit : Action bool :=
  fun w => (Return (match window_supabase w with Some _ => true | None => false end), w).

Definition testCurrentUser : Action (option User) :=
  let* sb := window_supabase_member "auth" in
  let* r := request sb AuthGetUser in
  match error r with
  | Some _ => ret None
  | None => ret (data_user r)
  end.

Definition testOwnProfile : Action bool :=
  let* user := testCurrentUser in
  match user with
  | None => ret false
  | Some user =>
      let* sb := window_supabase_member "from" in
      let* r := request sb (TableSelect "profiles" [("id", VStr (user_id user))] Single) in
      match error r with
      | Some _ => ret false
      | None => ret true
      end
  end.

End RLSDebug.

(** ** The page around the world: location, session storage, companion backend *)

(** What [fetch] resolves with: [response.ok] and the outcome of
    [response.json()]. *)
Record BackendResponse : Type := {
  backend_ok : bool;
  backend_json : Outcome Value
}.

Inductive FetchReply : Type :=
| Responds (r : BackendResponse)
| FetchFails (e : Exn).

(** [fetch(url, { method, headers })] *)
Record FetchRequest : Type := {
  fetch_url : string;
  fetch_method : string;
  fetch_content_type : string;
  fetch_authorization : string
}.

Record Page : Type := {
  page_world : World;
  location_href : string;                  (* window.location.href of this page *)
  navigations : list string;               (* values assigned to window.location.href *)
  sessionStorage : gmap string string;
  backend : FetchRequest -> FetchReply;    (* the companion backend *)
  fetched : list FetchRequest              (* oldest first *)
}.

Definition with_world (w : World) (p : Page) : Page :=
  {| page_world := w; location_href := location_href p; navigations := navigations p;
     sessionStorage := sessionStorage p; backend := backend p; fetched := fetched p |}.

Definition with_navigations (l : list string) (p : Page) : Page :=
  {| page_world := page_world p; location_href := location_href p; navigations := l;
     sessionStorage := sessionStorage p; backend := backend p; fetched := fetched p |}.

Definition with_sessionStorage (m : gmap string string) (p : Page) : Page :=
  {| page_world := page_world p; location_href := location_href p;
     navigations := navigations p; sessionStorage := m;
     backend := backend p; fetched := fetched p |}.

Definition with_fetched (l : list FetchRequest) (p : Page) : Page :=
  {| page_world := page_world p; location_href := location_href p;
     navigations := navigations p; sessionStorage := sessionStorage p;
     backend := backend p; fetched := l |}.

Definition PageAction (A : Type) : Type := Page -> Outcome A * Page.

Definition page_ret {A} (a : A) : PageAction A := fun p => (Return a, p).

Definition page_bind {A B} (m : PageAction A) (k : A -> PageAction B) : PageAction B :=
  fun p => match m p with
           | (Return a, p') => k a p'
           | (Throw e, p') => (Throw e, p')
           end.

Definition page_try_catch {A} (body : PageAction A) (handler : Exn -> PageAction A)
  : PageAction A :=
  fun p => match body p with
           | (Return a, p') => (Return a, p')
           | (Throw e, p') => handler e p'
           end.

(** Run an action of the world inside the page. *)
Definition in_world {A} (m : Action A) : PageAction A :=
  fun p => match m (page_world p) with
           | (o, w') => (o, with_world w' p)
           end.

Declare Scope page_scope.
Delimit Scope page_scope with page.
Notation "'let*' x ':=' m 'in' k" := (page_bind m (fun x => k))
  (at level 10, x name, m at level 100, k at level 200) : page_scope.

(** [window.location.href] read *)
Definition read_href : PageAction string := fun p => (Return (location_href p), p).

(** [window.location.href = target] *)
Definition assign_href (target : string) : PageAction unit :=
  fun p => (Return tt, with_navigations (navigations p ++ [target]) p).

(** [sessionStorage.clear()] *)
Definition clearSessionStorage : PageAction unit :=
  fun p => (Return tt, with_sessionStorage ∅ p).

(** [await fetch(...)]: the request is recorded, the backend replies. *)
Definition fetch (req : FetchRequest) : PageAction BackendResponse :=
  fun p =>
    let p' := with_fetched (fetched p ++ [req]) p in
    match backend p req with
    | Responds r => (Return r, p')
    | FetchFails e => (Throw e, p')
    end.

(** [await response.json()] *)
Definition json (r : BackendResponse) : PageAction Value :=
  fun p => (backend_json r, p).

(** ** Auth session manager: redirects and account deletion *)

Module AuthManagerPage.

Local Open Scope page_scope.

Definition redirectToLogin (returnUrl : option string) : PageAction unit :=
  page_try_catch
    (let* href := read_href in
     let currentUrl := if truthy_opt returnUrl then to_text returnUrl else href in
     let* _ := in_world (setItem "auth_return_url" currentUrl) in
     assign_href "login.html")
    (fun e => page_ret tt).

Definition redirectToRegister : PageAction unit :=
  page_try_catch (assign_href "register.html") (fun e => page_ret tt).

Definition redirectAfterLogin : PageAction unit :=
  page_try_catch
    (let* returnUrl := in_world (getItem "auth_return_url") in
     let* _ := in_world (removeItem "auth_return_url") in
     let* href := read_href in
     if truthy_opt returnUrl && negb (String.eqb (to_text returnUrl) href)
     then assign_href (to_text returnUrl)
     else assign_href "index.html")
    (fun e => assign_href "index.html").

Definition requireAuth `{JSON} : PageAction bool :=
  let* isAuth := in_world AuthManagerSession.checkAuth in
  if isAuth then page_ret true
  else let* _ := redirectToLogin None in page_ret false.

(** The keys [deleteAccount] removes after [clearCurrentUser]. *)
Definition keysToDelete : list string :=
  ["mindspend_firstName"; "mindspend_lastName"; "mindspend_username";
   "mindspend_email"; "mindspend_token"; "mindspend_refreshToken";
   "mindspend_analysis"; "mindspend_unified_analysis";
   "mindspend_transactions"; "mindspend_settings"].

(** [keysToDelete.forEach(key => localStorage.removeItem(key))] *)
Fixpoint removeItems (keys : list string) : Action unit :=
  match keys with
  | [] => ret tt
  | key :: rest => bind (removeItem key) (fun _ => removeItems rest)
  end.

Definition deletion_request (token : option string) : FetchRequest :=
  {| fetch_url := "/api/user/account"; fetch_method := "DELETE";
     fetch_content_type := "application/json";
     fetch_authorization := "Bearer " ++ to_text token |}.

(** Step 2 of [deleteAccount]: the inner try block.  [Some envelope] is an
    early [return] of the whole function. *)
Definition backend_deletion (token : option string) : PageAction (option Envelope) :=
  page_try_catch
    (let* response := fetch (deletion_request token) in
     if backend_ok response
     then let* result := json response in page_ret None
     else let* errorData := json response in
          page_ret (Some (failure (Some "Failed to delete account from backend"))))
    (fun e => page_ret (Some (failure (Some "Failed to connect to deletion service")))).

(** Step 3: the sign-out whose outcome is only logged. *)
Definition best_effort_signOut (sb : Collaborator) : PageAction unit :=
  page_try_catch
    (let* r := in_world (request sb AuthSignOut) in page_ret tt)
    (fun e => page_ret tt).

Definition deleteAccount (password : string) : PageAction Envelope :=
  page_try_catch
    (let* sb := in_world AuthManager.getSupabase in
     match sb with
     | None => page_ret (failure (Some "Supabase not initialized"))
     | Some sb =>
         (* Step 1: current user *)
         let* r := in_world (request sb AuthGetUser) in
         match error r, data_user r with
         | None, Some user =>
             (* Step 2: backend deletion *)
             let* token := in_world AuthManagerSession.getAccessToken in
             let* early := backend_deletion token in
             match early with
             | Some envelope => page_ret envelope
             | None =>
                 (* Step 3: sign out *)
                 let* _ := best_effort_signOut sb in
                 (* Step 4: local cleanup *)
                 let* _ := in_world AuthManager.clearCurrentUser in
                 let* _ := in_world (removeItems keysToDelete) in
                 let* _ := clearSessionStorage in
                 page_ret (succeeded (Some "Account deleted successfully") NoPayload)
             end
         | _, _ => page_ret (failure_requiresLogin "Not authenticated. Please login again.")
         end
     end)
    (fun e => page_ret
                (failure (Some (if truthy_opt (exn_message e)
                                then to_text (exn_message e)
                                else "An unexpected error occurred during account deletion")))).

End AuthManagerPage.

(** ** Navigation component: leaving the page *)

Module NavigationPage.

Local Open Scope page_scope.

(** [goToLogin], for [this.isDarkMode]. *)
Definition goToLogin (isDarkMode : bool) : PageAction unit :=
  let themeSuffix := if isDarkMode then "-dark" else "" in
  assign_href ("login" ++ themeSuffix ++ ".html").

(** [confirmLogout]; closing the modal only touches its style. *)
Definition confirmLogout (isDarkMode : bool) : PageAction unit :=
  page_try_catch
    (let* defined := in_world Navigation.AuthManager_is_defined in
     let* _ := (if defined
                then let* result := in_world AuthManager.logout in page_ret tt
                else page_ret tt) in
     let* _ := in_world clearStorage in
     goToLogin isDarkMode)
    (fun e => goToLogin isDarkMode).

End NavigationPage.

(** ** More scenarios *)

(** A page on [href] around a world, with nothing in session storage and no
    request sent to the backend yet. *)
Definition page_on (href : string) (w : World) (b : FetchRequest -> FetchReply) : Page :=
  {| page_world := w; location_href := href; navigations := [];
     sessionStorage := {[ "draft" := "1" ]}; backend := b; fetched := [] |}.

(** The backend deletes the account. *)
Definition deleting_backend : FetchRequest -> FetchReply :=
  fun _ => Responds {| backend_ok := true;
                       backend_json := Return (VObj [("success", VBool true)]) |}.

(** The backend refuses. *)
Definition refusing_backend : FetchRequest -> FetchReply :=
  fun _ => Responds {| backend_ok := false;
                       backend_json := Return (VObj [("error", VStr "forbidden")]) |}.

(** ** More specification vocabulary *)

(** A storage slot that reads as absent: unset, empty, or holding a text the
    codec cannot parse. *)
Definition unreadable `{JSON} (slot : option string) : Prop :=
  slot = None \/ slot = Some "" \/
  exists text e, slot = Some text /\ JSON_parse text = Throw e.

Definition authUserUpdated (v : Value) : Event :=
  {| event_type := "authUserUpdated"; detail := DetailValue v |}.

Definition storageCleared : Event := {| event_type := "storageCleared"; detail := NoDetail |}.

(** The [id] a request on the [profiles] table is tied to: the [id] filter
    of a query or update, the [id] column of an inserted row. *)
Definition profile_key (c : Call) : option Value :=
  match c with
  | TableSelect "profiles" filters _ => Some (assoc "id" filters)
  | TableInsert "profiles" row _ => Some (assoc "id" row)
  | TableUpdate "profiles" _ filters => Some (assoc "id" filters)
  | TableDelete "profiles" filters => Some (assoc "id" filters)
  | _ => None
  end.

Definition is_null_or_undefined (v : Value) : bool :=
  match v with VNull | VUndefined => true | _ => false end.

(** ** A structural codec for the scenarios *)

(** The double quote and the backslash. *)
Definition dquote : ascii := ascii_of_nat 34.
Definition backslash : ascii := ascii_of_nat 92.

(** A string literal of JSON: quotes and backslashes are escaped. *)
Fixpoint escape (s : string) : string :=
  match s with
  | EmptyString => EmptyString
  | String c rest =>
      if Ascii.eqb c dquote || Ascii.eqb c backslash
      then String backslash (String c (escape rest))
      else String c (escape rest)
  end.

Definition quote (s : string) : string :=
  String dquote (escape s ++ String dquote EmptyString).

(** The JSON text of a value built from null, booleans, strings, arrays and
    objects; numbers and undefined are outside this fragment. *)
Fixpoint print (v : Value) : option string :=
  match v with
  | VNull => Some "null"
  | VBool true => Some "true"
  | VBool false => Some "false"
  | VStr s => Some (quote s)
  | VArr items =>
      let fix print_items (l : list Value) : option string :=
        match l with
        | [] => Some ""
        | [x] => print x
        | x :: rest =>
            match print x, print_items rest with
            | Some a, Some b => Some (a ++ "," ++ b)%string
            | _, _ => None
            end
        end in
      match print_items items with
      | Some body => Some ("[" ++ body ++ "]")%string
      | None => None
      end
  | VObj fields =>
      let fix print_fields (l : list (string * Value)) : option string :=
        match l with
        | [] => Some ""
        | [(k, x)] =>
            match print x with
            | Some a => Some (quote k ++ ":" ++ a)%string
            | None => None
            end
        | (k, x) :: rest =>
            match print x, print_fields rest with
            | Some a, Some b => Some (quote k ++ ":" ++ a ++ "," ++ b)%string
            | _, _ => None
            end
        end in
      match print_fields fields with
      | Some body => Some ("{" ++ body ++ "}")%string
      | None => None
      end
  | VUndefined | VNum _ => None
  end.

(** The codec of a scenario: it prints the fragment above and parses the
    texts of the values the scenario knows. *)
Definition scenario_JSON (known : list Value) : JSON :=
  {| JSON_stringify v :=
       match print v with
       | Some text => Return text
       | None => Throw (TypeError "outside the fragment")
       end;
     JSON_parse text :=
       match find (fun v => match print v with
                            | Some t => String.eqb t text
                            | None => false
                            end) known with
       | Some v => Return v
       | None => Throw (SyntaxError "Unexpected token")
       end |}.

(** Alice's row in [profiles]. *)
Definition alice_profile : Profile :=
  {| profile_id := "u1"; profile_email := Some "a@x.com"; username := Some "alice";
     first_name := None; last_name := None |}.

Definition response_profile (p : Profile) : Response :=
  {| data_user := None; data_session := None; data_profile := Some p;
     data := VNull; error := None; count := None |}.

(** Alice can sign up and sign in, and has a profile row. *)
Definition alice_login_collaborator : Collaborator :=
  fun _ c =>
    match c with
    | AuthGetUser | AuthSignUp _ _ | AuthSignInWithPassword _ _ | AuthGetSession =>
        Resolves (response_user alice)
    | TableSelect "profiles" _ Single => Resolves (response_profile alice_profile)
    | _ => Resolves response_ok
    end.

(** The codec that knows Alice's session. *)
Definition alice_JSON : JSON :=
  scenario_JSON [user_value (Some alice); profile_value (Some alice_profile); VNull].

(** ** Client configuration (src/frontend/utils/supabase.js) *)

Definition SUPABASE_URL : string := "https://afotlyqwctmljhtroiyp.supabase.co".
Definition SUPABASE_ANON_KEY : string := "sb_publishable_t-MFkypCJ50Dhk6izLM6Nw_eX3yShbu".

Definition with_supabase (sb : option Collaborator) (w : World) : World :=
  {| window_supabase := sb; localStorage := localStorage w;
     storage_quota := storage_quota w; dispatched := dispatched w;
     requests := requests w; AuthManager_defined := AuthManager_defined w;
     main_nav := main_nav w |}.

(** [initSupabase]: [library] is [window.supabase.createClient] when the
    client library has loaded; otherwise [window.supabase] becomes null. *)
Definition initSupabase (library : option (string -> string -> Collaborator)) : Action unit :=
  fun w =>
    match library with
    | Some createClient =>
        (Return tt, with_supabase (Some (createClient SUPABASE_URL SUPABASE_ANON_KEY)) w)
    | None => (Return tt, with_supabase None w)
    end.

(** [{ success: false, error: 'Supabase not initialized' }] *)
Definition not_initialized : Envelope := failure (Some "Supabase not initialized").

Definition same_password : ApiError :=
  {| err_code := "same_password";
     err_message := "New password should be different from the old password." |}.

(** Bob's password is verified, but the collaborator refuses the new one. *)
Definition picky_collaborator : Collaborator :=
  fun h c =>
    match c with
    | AuthUpdateUser _ =>
        Resolves (response_error (err_code same_password) (err_message same_password))
    | _ => bob_collaborator h c
    end.

(** ** Vocabulary for the page-level properties *)

(** The backend confirmed the deletion: a 2xx response whose body is JSON. *)
Definition backend_deleted (reply : FetchReply) : bool :=
  match reply with
  | Responds r =>
      backend_ok r && match backend_json r with Return _ => true | Throw _ => false end
  | FetchFails _ => false
  end.

(** The token [deleteAccount] sends: what [getAccessToken] returns after the
    user lookup. *)
Definition token_after_lookup (w : World) : option string :=
  match fst (AuthManagerSession.getAccessToken
               (with_requests (requests w ++ [AuthGetUser]) w)) with
  | Return token => token
  | Throw _ => None
  end.

(** The keys a completed [deleteAccount] removes from local storage. *)
Definition wiped_keys : list string :=
  "auth_user" :: "userProfile" :: AuthManagerPage.keysToDelete.

(** The name the three cached display fields give, if any. *)
Definition cached_display_name (store : gmap string string) : option string :=
  let first := store !! "mindspend_firstName" in
  let last := store !! "mindspend_lastName" in
  let user := store !! "mindspend_username" in
  if truthy_opt first && truthy_opt last then Some (to_text first ++ " " ++ to_text last)%string
  else if truthy_opt first then Some (to_text first)
  else if truthy_opt user then Some (to_text user)
  else None.

(** Alice's page, with the backend that deletes accounts. *)
Definition alice_page : Page :=
  page_on "https://mindspend.example/settings.html"
    (browser (Some alice_login_collaborator) alice_cache) deleting_backend.

(** ** Scenarios for the failure paths *)

(** The case mapping on ASCII text: enough to run [changePassword] on the
    collaborator's messages, which are ASCII. *)
Definition ascii_case : CaseMapping :=
  {| toLowerCase := fold_ascii; toLowerCase_ascii := fun s _ => eq_refl |}.

(** Whether a sign-up is among the requests made so far. *)
Definition signed_up (history : list Call) : bool :=
  existsb (fun c => match c with AuthSignUp _ _ => true | _ => false end) history.

(** A project without email confirmation: nobody is signed in until the
    sign-up, which creates Alice and opens her session.  The profile insert
    is refused by the row-level policy, and the browser client may not delete
    users. *)
Definition session_opening_collaborator : Collaborator :=
  fun history c =>
    match c with
    | AuthGetUser =>
        if signed_up history
        then Resolves (response_user alice)
        else Resolves (response_error "session_missing" "Auth session missing!")
    | _ => refusing_collaborator history c
    end.

(** Sign-up creates Alice, then the connection drops: the profile insert
    rejects instead of answering. *)
Definition dropping_collaborator : Collaborator :=
  fun history c =>
    match c with
    | TableInsert _ _ _ => Rejects (TypeError "Failed to fetch")
    | _ => refusing_collaborator history c
    end.



(** The requests of a registration whose profile insert rejects. *)
Definition interrupted_requests (u : User) (email password username firstName lastName : string)
  : list Call :=
  [AuthSignUp email password; AuthGetSession;
   TableInsert "profiles" (AuthManager.profile_row u email username firstName lastName) false].

(** * Properties *)

(** ** Basic facts about actions *)

Lemma drop_length_app {A} (l l' : list A) : drop (length l) (l ++ l') = l'.
Proof. induction l as [|x l IH]; simpl; auto. Qed.

Lemma drop_length_self {A} (l : list A) : drop (length l) l = [].
Proof. induction l as [|x l IH]; simpl; auto. Qed.

Lemma truthy_nonempty (s : string) : s <> "" -> truthy s = true.
Proof. destruct s; [done | reflexivity]. Qed.

Lemma try_catch_returns {A} (body : Action A) (handler : Exn -> Action A) (w : World) :
  (forall e w', exists a, fst (handler e w') = Return a) ->
  exists a, fst (try_catch body handler w) = Return a.
Proof.
  intros Hh. unfold try_catch.
  destruct (body w) as [[a | e] w']; [by exists a | apply Hh].
Qed.

Lemma request_resolves (sb : Collaborator) (c : Call) (r : Response) (w : World) :
  sb (requests w) c = Resolves r ->
  request sb c w = (Return r, with_requests (requests w ++ [c]) w).
Proof. intros H. unfold request. by rewrite H. Qed.

(** *** The session lookup *)

Lemma getCurrentUser_run (w : World) :
  AuthManager.getCurrentUser w = (Return (session_user w), after_lookup w).
Proof.
  unfold AuthManager.getCurrentUser, try_catch, bind, AuthManager.getSupabase,
    session_user, after_lookup, request.
  destruct (window_supabase w) as [sb|]; [|done].
  destruct (sb (requests w) AuthGetUser) as [r|e]; [|done].
  by destruct (error r).
Qed.

Lemma after_lookup_requests (w : World) :
  requests (after_lookup w) = requests w ++ session_lookup w.
Proof.
  unfold after_lookup, session_lookup.
  destruct (window_supabase w); [done | by rewrite app_nil_r].
Qed.

Lemma after_lookup_supabase (w : World) :
  window_supabase (after_lookup w) = window_supabase w.
Proof. unfold after_lookup. by destruct (window_supabase w) eqn:E. Qed.

Lemma session_user_client (w : World) (u : User) :
  session_user w = Some u -> exists sb, window_supabase w = Some sb.
Proof. unfold session_user. destruct (window_supabase w); [eauto | done]. Qed.

Lemma session_user_answers (w : World) (u : User) :
  session_user w = Some u ->
  exists sb r, window_supabase w = Some sb /\
    sb (requests w) AuthGetUser = Resolves r /\ error r = None /\ data_user r = Some u.
Proof.
  unfold session_user. intros H.
  destruct (window_supabase w) as [sb|]; [|done].
  destruct (sb (requests w) AuthGetUser) as [r|] eqn:Hr; [|done].
  destruct (error r) eqn:He; [done|]. by exists sb, r.
Qed.

Lemma getCurrentProfile_no_session (w : World) :
  session_user w = None ->
  AuthManager.getCurrentProfile w = (Return None, after_lookup w).
Proof.
  intros Hs. unfold AuthManager.getCurrentProfile, try_catch, bind.
  by rewrite getCurrentUser_run, Hs.
Qed.

Lemma issued_after_lookup {A} (m : Action A) (w : World) (sb : Collaborator) (cs : list Call) :
  window_supabase w = Some sb ->
  requests (snd (m w)) = requests (after_lookup w) ++ cs ->
  issued m w = AuthGetUser :: cs.
Proof.
  intros Hsb Hreq. unfold issued. rewrite Hreq, after_lookup_requests.
  unfold session_lookup. rewrite Hsb, <- app_assoc. apply drop_length_app.
Qed.

(** *** The cache *)

Lemma ANONYMOUS_same_storage (w w' : World) :
  localStorage w' = localStorage w -> ANONYMOUS w -> ANONYMOUS w'.
Proof. unfold ANONYMOUS. intros ->. done. Qed.

Lemma ANONYMOUS_lookup (w : World) (k : string) :
  ANONYMOUS w -> In k cache_keys -> localStorage w !! k = None.
Proof.
  unfold ANONYMOUS. rewrite Forall_forall. intros H Hk. apply H.
  by apply list_elem_of_In.
Qed.

Lemma clear_absent_keys (m : gmap string string) :
  m !! "auth_user" = None -> m !! "userProfile" = None ->
  delete "userProfile" (delete "auth_user" m) = m.
Proof.
  intros Ha Hp. rewrite (delete_id m "auth_user" Ha). by apply delete_id.
Qed.

(** ** The API facade without a session *)

Lemma operation_returns (op : Operation) (w : World) :
  exists env, fst (run_operation op w) = Return env.
Proof.
  destruct op; simpl; apply try_catch_returns; intros e w'; by eexists.
Qed.

Lemma operation_no_session (op : Operation) (w : World) :
  session_user w = None ->
  run_operation op w =
    (Return match op with
            | GetMetrics | AddMetric _ | DeleteMetric _ => not_authenticated
            | GetProfile => failure (Some "Not authenticated")
            | GetUserProfile => failure (Some "Profile not found")
            | UpdateUserProfile _ =>
                match window_supabase w with
                | Some _ => not_authenticated
                | None => failure (Some "Supabase not initialized")
                end
            end,
     after_lookup w).
Proof.
  intros Hs. destruct op; simpl.
  - unfold API.getProfile, try_catch, bind. by rewrite getCurrentUser_run, Hs.
  - unfold API.getUserProfile, try_catch, bind.
    by rewrite getCurrentProfile_no_session.
  - unfold API.getMetrics, try_catch, bind. by rewrite getCurrentUser_run, Hs.
  - unfold API.addMetric, try_catch, bind. by rewrite getCurrentUser_run, Hs.
  - unfold API.deleteMetric, try_catch, bind. by rewrite getCurrentUser_run, Hs.
  - unfold API.updateUserProfile, AuthManager.updateProfile, try_catch, bind,
      AuthManager.getSupabase.
    destruct (window_supabase w) eqn:Hsb.
    + by rewrite getCurrentUser_run, Hs.
    + unfold after_lookup. by rewrite Hsb.
Qed.

Lemma issued_no_session (op : Operation) (w : World) :
  session_user w = None -> issued (run_operation op) w = session_lookup w.
Proof.
  intros Hs. unfold issued. rewrite (operation_no_session op w Hs). simpl.
  by rewrite after_lookup_requests, drop_length_app.
Qed.

(** C1 (as amended).  With no active session, [getMetrics], [addMetric],
    [deleteMetric] -- and [updateUserProfile] when the client is initialised
    -- return [{success: false, error: 'Not authenticated', requiresLogin:
    true}]; [getProfile] returns a failure envelope whose error is 'Not
    authenticated' and [getUserProfile] a failure envelope; the only request
    any of the six sends to the collaborator is the session lookup
    [auth.getUser()] itself, so no table request is issued.  And for every
    world and every input, each of the six operations returns an envelope:
    no exception escapes. *)
Theorem facade_without_session (op : Operation) (w : World) :
  (exists env, fst (run_operation op w) = Return env) /\
  (session_user w = None ->
   issued (run_operation op) w = session_lookup w /\
   Forall (fun c => is_table_request c = false) (issued (run_operation op) w) /\
   exists env, fst (run_operation op w) = Return env /\
     success env = false /\
     match op with
     | GetMetrics | AddMetric _ | DeleteMetric _ => env = not_authenticated
     | UpdateUserProfile _ => window_supabase w <> None -> env = not_authenticated
     | GetProfile => env_error env = Some "Not authenticated"
     | GetUserProfile => True
     end).
Proof.
  split; [apply operation_returns|].
  intros Hs. pose proof (issued_no_session op w Hs) as Hiss.
  split; [done|]. split.
  { rewrite Hiss. unfold session_lookup.
    destruct (window_supabase w); repeat constructor. }
  rewrite (operation_no_session op w Hs). simpl.
  eexists. split; [reflexivity|].
  destruct op; simpl; try done; destruct (window_supabase w); done.
Qed.

(** The theorem applied to the scenario of the specification:
    [addMetric({category: 'food', value: 12.5, description: 'lunch'})] with
    nobody signed in. *)
Lemma facade_without_session_witness :
  session_user (browser (Some signed_out_collaborator) ∅) = None /\
  fst (API.addMetric lunch (browser (Some signed_out_collaborator) ∅))
    = Return not_authenticated /\
  issued (API.addMetric lunch) (browser (Some signed_out_collaborator) ∅) = [AuthGetUser].
Proof.
  pose proof (facade_without_session (AddMetric lunch)
                (browser (Some signed_out_collaborator) ∅)) as [_ H].
  split; [reflexivity|].
  destruct (H eq_refl) as (Hiss & _ & env & Hret & _ & Henv).
  subst env. split; [exact Hret | exact Hiss].
Defined.

(** C1 fails as stated: with nobody signed in, [getProfile] answers without
    [requiresLogin], [getUserProfile] answers 'Profile not found', and both
    have called the collaborator's [auth.getUser()]. *)
Lemma facade_without_session_counterexample :
  let w := browser (Some signed_out_collaborator) ∅ in
  session_user w = None /\
  fst (API.getProfile w) = Return (failure (Some "Not authenticated")) /\
  requiresLogin (failure (Some "Not authenticated")) = false /\
  fst (API.getUserProfile w) = Return (failure (Some "Profile not found")) /\
  issued API.getProfile w = [AuthGetUser] /\
  issued API.getUserProfile w = [AuthGetUser].
Proof. repeat split. Qed.

(** ** Tenant scoping of metric requests *)

Lemma scoped_lookup (w : World) : Forall (scoped_by_session w) (session_lookup w).
Proof.
  unfold session_lookup. destruct (window_supabase w); repeat constructor.
  intros H. discriminate H.
Qed.

Lemma getMetrics_issued (w : World) (u : User) :
  session_user w = Some u ->
  issued API.getMetrics w =
    [AuthGetUser;
     TableSelect "metrics" [("user_id", VStr (user_id u))] (OrderBy "created_at" false)].
Proof.
  intros Hs. destruct (session_user_client w u Hs) as [sb Hsb].
  apply (issued_after_lookup _ w sb); [done|].
  unfold API.getMetrics, try_catch, bind, API.getSupabase.
  rewrite getCurrentUser_run, Hs, after_lookup_supabase, Hsb.
  unfold request.
  destruct (sb _ _) as [r|e]; [by destruct (error r) | done].
Qed.

Lemma deleteMetric_issued (metricId : Value) (w : World) (u : User) :
  session_user w = Some u ->
  issued (API.deleteMetric metricId) w =
    [AuthGetUser;
     TableDelete "metrics" [("id", metricId); ("user_id", VStr (user_id u))]].
Proof.
  intros Hs. destruct (session_user_client w u Hs) as [sb Hsb].
  apply (issued_after_lookup _ w sb); [done|].
  unfold API.deleteMetric, try_catch, bind, API.getSupabase.
  rewrite getCurrentUser_run, Hs, after_lookup_supabase, Hsb.
  unfold request.
  destruct (sb _ _) as [r|e]; [by destruct (error r) | done].
Qed.

(** [addMetric] sends the insert unless reading the caller's object throws. *)
Lemma addMetric_issued (metricData : Value) (w : World) (u : User) :
  session_user w = Some u ->
  issued (API.addMetric metricData) w = [AuthGetUser] \/
  exists category value description,
    issued (API.addMetric metricData) w =
      [AuthGetUser; TableInsert "metrics" (API.metric_row u category value description) true].
Proof.
  intros Hs. destruct (session_user_client w u Hs) as [sb Hsb].
  destruct (get_prop "category" metricData) as [category|e] eqn:Hc.
  - destruct (get_prop "value" metricData) as [value|e] eqn:Hv;
      [| destruct metricData; discriminate].
    destruct (get_prop "description" metricData) as [description|e] eqn:Hd;
      [| destruct metricData; discriminate].
    right. exists category, value, description.
    apply (issued_after_lookup _ w sb); [done|].
    unfold API.addMetric, try_catch, bind, API.getSupabase, lift.
    rewrite getCurrentUser_run, Hs, after_lookup_supabase, Hsb, Hc, Hv, Hd.
    unfold request.
    destruct (sb _ _) as [r|e]; [|done].
    destruct (error r); [done|]. by destruct (get_first (data r)).
  - left. apply (issued_after_lookup _ w sb); [done|].
    unfold API.addMetric, try_catch, bind, API.getSupabase, lift.
    rewrite getCurrentUser_run, Hs, after_lookup_supabase, Hsb, Hc.
    simpl. by rewrite app_nil_r.
Qed.

(** C7.  Every request that [getMetrics], [addMetric] and [deleteMetric] send
    to a table carries the [user_id] of the user the session lookup
    ([getCurrentUser]) returned in that same run -- whatever the caller
    passes as metric data or metric id; without a session no table request
    is sent at all. *)
Theorem metric_requests_scoped_by_session (w : World) (metricData metricId : Value) :
  Forall (scoped_by_session w) (issued API.getMetrics w) /\
  Forall (scoped_by_session w) (issued (API.addMetric metricData) w) /\
  Forall (scoped_by_session w) (issued (API.deleteMetric metricId) w).
Proof.
  destruct (session_user w) as [u|] eqn:Hs.
  - assert (Hget : scoped_by_session w AuthGetUser) by (intros H; discriminate H).
    assert (Hscoped : forall c, scoped_user_id c = Some (VStr (user_id u)) ->
                                scoped_by_session w c) by (intros c Hc _; eauto).
    split; [|split].
    + rewrite (getMetrics_issued w u Hs). repeat constructor; auto.
    + destruct (addMetric_issued metricData w u Hs) as [-> | (c & v & d & ->)];
        repeat constructor; auto.
    + rewrite (deleteMetric_issued metricId w u Hs). repeat constructor; auto.
  - pose proof (issued_no_session GetMetrics w Hs) as E1.
    pose proof (issued_no_session (AddMetric metricData) w Hs) as E2.
    pose proof (issued_no_session (DeleteMetric metricId) w Hs) as E3.
    simpl in E1, E2, E3. rewrite E1, E2, E3.
    split; [|split]; apply scoped_lookup.
Qed.

(** Bob adds a metric whose object names Alice as owner: the row that is
    sent is Bob's. *)
Example addMetric_ignores_forged_owner :
  issued (API.addMetric forged_lunch) (browser (Some bob_collaborator) ∅) =
    [AuthGetUser;
     TableInsert "metrics"
       [("user_id", VStr "u2"); ("category", VStr "food");
        ("value", VNum (25 # 2)); ("description", VStr "lunch")] true].
Proof. reflexivity. Qed.

(** ** Deleting a metric *)

(** C10.  When somebody is signed in and the collaborator answers the
    deletion without an error, [deleteMetric] returns [{success: true}] --
    whatever else the response says: the number of rows touched is not read,
    so a deletion that matched no row (an unknown id, or a metric of another
    user filtered out by the [user_id] scope) is reported exactly like one
    that removed a row. *)
Theorem deleteMetric_success_without_error
    (metricId : Value) (w : World) (u : User) (sb : Collaborator) (r : Response) :
  window_supabase w = Some sb ->
  session_user w = Some u ->
  sb (requests w ++ [AuthGetUser])
     (TableDelete "metrics" [("id", metricId); ("user_id", VStr (user_id u))]) = Resolves r ->
  error r = None ->
  fst (API.deleteMetric metricId w) = Return (succeeded None NoPayload).
Proof.
  intros Hsb Hs Hr He.
  unfold API.deleteMetric, try_catch, bind, API.getSupabase.
  rewrite getCurrentUser_run, Hs, after_lookup_supabase, Hsb.
  unfold request, after_lookup. rewrite Hsb. simpl. by rewrite Hr, He.
Qed.

(** Bob deletes a metric that does not exist: zero rows, success. *)
Lemma deleteMetric_success_without_error_witness :
  bob_collaborator [AuthGetUser]
    (TableDelete "metrics" [("id", VStr "no-such-metric"); ("user_id", VStr "u2")])
    = Resolves response_no_rows /\
  count response_no_rows = Some 0 /\
  fst (API.deleteMetric (VStr "no-such-metric") (browser (Some bob_collaborator) ∅))
    = Return (succeeded None NoPayload).
Proof.
  split; [reflexivity|]. split; [reflexivity|].
  apply (deleteMetric_success_without_error (VStr "no-such-metric")
           (browser (Some bob_collaborator) ∅) bob bob_collaborator response_no_rows);
    reflexivity.
Defined.

(** ** Changing the password *)






(** ** Registration: identity created, profile refused *)

Lemma register_profile_refused_run
    (email password username firstName lastName : string) (w : World)
    (sb : Collaborator) (u : User) (r1 r2 r3 : Response) (profileError : ApiError) :
  window_supabase w = Some sb ->
  answers sb (requests w)
    [(AuthSignUp email password, Resolves r1);
     (AuthGetSession, Resolves r2);
     (TableInsert "profiles" (AuthManager.profile_row u email username firstName lastName) false,
      Resolves r3)] ->
  error r1 = None -> data_user r1 = Some u ->
  error r3 = Some profileError ->
  AuthManager.register email password username firstName lastName w =
    (Return (failure (Some (AuthManager.profile_user_message (err_message profileError)))),
     with_requests (requests w ++ rollback_requests u email password username firstName lastName) w).
Proof.
  intros Hsb (H1 & H2 & H3 & _) He1 Hu1 He3.
  unfold AuthManager.register, try_catch, bind, AuthManager.getSupabase.
  rewrite Hsb, (request_resolves _ _ _ _ H1), He1, Hu1. simpl.
  unfold request at 1. simpl. rewrite H2.
  assert (Hwait : forall w0,
            match error r2, data_session r2 with
            | None, Some _ => ret tt
            | _, _ => AuthManager.wait 1500
            end w0 = (Return tt, w0)).
  { intros w0. destruct (error r2), (data_session r2); reflexivity. }
  rewrite Hwait.
  unfold request at 1. simpl. rewrite H3, He3.
  unfold request. simpl.
  unfold rollback_requests.
  destruct (sb _ (AuthAdminDeleteUser (user_id u))); simpl;
    by rewrite <- !app_assoc.
Qed.

(** The profile insert rejects instead of answering: the catch block of
    [register] takes over, after three requests. *)
Lemma register_insert_rejected_run
    (email password username firstName lastName : string) (w : World)
    (sb : Collaborator) (u : User) (r1 r2 : Response) (e : Exn) :
  window_supabase w = Some sb ->
  answers sb (requests w)
    [(AuthSignUp email password, Resolves r1);
     (AuthGetSession, Resolves r2);
     (TableInsert "profiles" (AuthManager.profile_row u email username firstName lastName) false,
      Rejects e)] ->
  error r1 = None -> data_user r1 = Some u ->
  AuthManager.register email password username firstName lastName w =
    (Return (failure (exn_message e)),
     with_requests (requests w ++ interrupted_requests u email password username firstName lastName) w).
Proof.
  intros Hsb (H1 & H2 & H3 & _) He1 Hu1.
  unfold AuthManager.register, try_catch, bind, AuthManager.getSupabase.
  rewrite Hsb, (request_resolves _ _ _ _ H1), He1, Hu1. simpl.
  unfold request at 1. simpl. rewrite H2.
  assert (Hwait : forall w0,
            match error r2, data_session r2 with
            | None, Some _ => ret tt
            | _, _ => AuthManager.wait 1500
            end w0 = (Return tt, w0)).
  { intros w0. destruct (error r2), (data_session r2); reflexivity. }
  rewrite Hwait.
  unfold request. simpl. rewrite H3. simpl.
  unfold interrupted_requests. by rewrite <- !app_assoc.
Qed.

(** C4 (as amended).  In frontend/utils/auth.js, once the sign-up has
    returned a user without an error and the session check has answered:

    - when the collaborator answers the profile insert with an error,
      [register] sends the compensating [auth.admin.deleteUser(user.id)]
      and returns [{success: false, error}] where [error] is the message of
      the profile branch (the collaborator's profile error, or its RLS /
      duplicate rewording), not the [e.message] of the catch block;
    - when the insert request rejects, [register] sends no deletion and
      returns the [e.message] of the catch block.

    Either way [register] sends no sign-out, writes nothing to local storage
    and dispatches nothing: it does not bring the client back to the
    anonymous state, the session is whatever the collaborator keeps. *)
Theorem register_profile_refused
    (email password username firstName lastName : string) (w : World)
    (sb : Collaborator) (u : User) (r1 r2 : Response) :
  window_supabase w = Some sb ->
  answers sb (requests w)
    [(AuthSignUp email password, Resolves r1); (AuthGetSession, Resolves r2)] ->
  error r1 = None -> data_user r1 = Some u ->
  let run := AuthManager.register email password username firstName lastName in
  match sb ((requests w ++ [AuthSignUp email password]) ++ [AuthGetSession])
           (TableInsert "profiles"
              (AuthManager.profile_row u email username firstName lastName) false) with
  | Resolves r3 =>
      forall profileError, error r3 = Some profileError ->
        fst (run w) = Return (failure (Some (AuthManager.profile_user_message
                                               (err_message profileError)))) /\
        issued run w = rollback_requests u email password username firstName lastName /\
        In (AuthAdminDeleteUser (user_id u)) (issued run w) /\
        ~ In AuthSignOut (issued run w) /\
        localStorage (snd (run w)) = localStorage w /\
        broadcast run w = []
  | Rejects e =>
      fst (run w) = Return (failure (exn_message e)) /\
      issued run w = interrupted_requests u email password username firstName lastName /\
      ~ In (AuthAdminDeleteUser (user_id u)) (issued run w) /\
      ~ In AuthSignOut (issued run w) /\
      localStorage (snd (run w)) = localStorage w /\
      broadcast run w = []
  end.
Proof.
  intros Hsb (H1 & H2 & _) He1 Hu1 run.
  destruct (sb _ (TableInsert _ _ _)) as [r3|e] eqn:H3.
  - intros profileError He3.
    pose proof (register_profile_refused_run email password username firstName lastName
                  w sb u r1 r2 r3 profileError Hsb
                  (conj H1 (conj H2 (conj H3 I))) He1 Hu1 He3) as Hrun.
    fold run in Hrun.
    assert (Hiss : issued run w = rollback_requests u email password username firstName lastName).
    { unfold issued. rewrite Hrun. simpl. apply drop_length_app. }
    rewrite Hiss. unfold broadcast. rewrite Hrun. simpl.
    repeat split.
    + auto.
    + intros [Hc | [Hc | [Hc | [Hc | []]]]]; discriminate Hc.
    + apply drop_length_self.
  - pose proof (register_insert_rejected_run email password username firstName lastName
                  w sb u r1 r2 e Hsb
                  (conj H1 (conj H2 (conj H3 I))) He1 Hu1) as Hrun.
    fold run in Hrun.
    assert (Hiss : issued run w = interrupted_requests u email password username firstName lastName).
    { unfold issued. rewrite Hrun. simpl. apply drop_length_app. }
    rewrite Hiss. unfold broadcast. rewrite Hrun. simpl.
    repeat split.
    + intros [Hc | [Hc | [Hc | []]]]; discriminate Hc.
    + intros [Hc | [Hc | [Hc | []]]]; discriminate Hc.
    + apply drop_length_self.
Qed.

(** The row-level policy refuses Alice's profile; on another page the
    connection drops before the insert is answered. *)
Lemma register_profile_refused_witness :
  let run := AuthManager.register "a@x.com" "pw" "alice" "" "" in
  (fst (run (browser (Some refusing_collaborator) ∅)) = Return (failure (Some
     "Profile creation blocked by database policy. This is likely an RLS configuration issue. Check frontend/RLS_COMPLETE_FIX.md for solution.")) /\
   issued run (browser (Some refusing_collaborator) ∅)
     = rollback_requests alice "a@x.com" "pw" "alice" "" "") /\
  (fst (run (browser (Some dropping_collaborator) ∅))
     = Return (failure (Some "Failed to fetch")) /\
   issued run (browser (Some dropping_collaborator) ∅)
     = interrupted_requests alice "a@x.com" "pw" "alice" "" "").
Proof.
  intros run. split.
  - pose proof (register_profile_refused "a@x.com" "pw" "alice" "" ""
                  (browser (Some refusing_collaborator) ∅)
                  refusing_collaborator alice (response_user alice) (response_user alice)
                  eq_refl (conj eq_refl (conj eq_refl I)) eq_refl eq_refl) as Hrun.
    simpl in Hrun.
    destruct (Hrun rls_refusal eq_refl) as (Hret & Hiss & _).
    split; [exact Hret | exact Hiss].
  - pose proof (register_profile_refused "a@x.com" "pw" "alice" "" ""
                  (browser (Some dropping_collaborator) ∅)
                  dropping_collaborator alice (response_user alice) (response_user alice)
                  eq_refl (conj eq_refl (conj eq_refl I)) eq_refl eq_refl) as Hrun.
    simpl in Hrun.
    destruct Hrun as (Hret & Hiss & _).
    split; [exact Hret | exact Hiss].
Defined.

(** C4 fails as stated, in two ways.  The final state need not be anonymous:
    [register] never signs out, so when the sign-up opened a session and the
    collaborator refuses the deletion, Alice, whom nobody knew before the
    call, is signed in after it although [register] reported a failure.
    And the older copy of the manager reports the profile error without ever
    asking the collaborator to delete the identity it created. *)
Lemma register_profile_refused_counterexample :
  let w := browser (Some session_opening_collaborator) ∅ in
  let run := AuthManager.register "a@x.com" "pw" "alice" "" "" in
  let legacy := AuthManagerLegacy.register "a@x.com" "pw" "alice" "" "" in
  (fst (AuthManager.isAuthenticated w) = Return false /\
   fst (run w) = Return (failure (Some
     (AuthManager.profile_user_message (err_message rls_refusal)))) /\
   In (AuthAdminDeleteUser "u1") (issued run w) /\
   session_user (snd (run w)) = Some alice /\
   fst (AuthManager.isAuthenticated (snd (run w))) = Return true) /\
  (fst (legacy (browser (Some refusing_collaborator) ∅))
     = Return (failure (Some (err_message rls_refusal))) /\
   issued legacy (browser (Some refusing_collaborator) ∅) =
     [AuthSignUp "a@x.com" "pw";
      TableInsert "profiles" (AuthManager.profile_row alice "a@x.com" "alice" "" "") false] /\
   ~ In (AuthAdminDeleteUser "u1") (issued legacy (browser (Some refusing_collaborator) ∅))).
Proof.
  split.
  - repeat split. simpl. auto.
  - repeat split. intros [Hc | [Hc | []]]; discriminate Hc.
Qed.

(** ** Logging out *)

Lemma clearCurrentUser_run (w : World) :
  AuthManager.clearCurrentUser w =
    (Return tt,
     with_dispatched (dispatched w ++ [authUserCleared])
       (with_localStorage (delete "userProfile" (delete "auth_user" (localStorage w))) w)).
Proof. reflexivity. Qed.

Lemma logout_signed_out_run (w : World) (sb : Collaborator) (r : Response) :
  window_supabase w = Some sb ->
  sb (requests w) AuthSignOut = Resolves r ->
  error r = None ->
  AuthManager.logout w =
    (Return (succeeded None NoPayload),
     with_dispatched (dispatched w ++ [authUserCleared; authUserCleared])
       (with_localStorage (delete "userProfile" (delete "auth_user" (localStorage w)))
          (with_requests (requests w ++ [AuthSignOut]) w))).
Proof.
  intros Hsb Hr He.
  unfold AuthManager.logout, try_catch, bind, AuthManager.getSupabase.
  rewrite Hsb, (request_resolves _ _ _ _ Hr), He, clearCurrentUser_run.
  unfold dispatchEvent, with_dispatched, with_localStorage, with_requests. simpl.
  by rewrite <- app_assoc.
Qed.

Lemma logout_sign_out_error_run (w : World) (sb : Collaborator) (r : Response) (err : ApiError) :
  window_supabase w = Some sb ->
  sb (requests w) AuthSignOut = Resolves r ->
  error r = Some err ->
  AuthManager.logout w =
    (Return (failure (Some (err_message err))),
     with_requests (requests w ++ [AuthSignOut]) w).
Proof.
  intros Hsb Hr He.
  unfold AuthManager.logout, try_catch, bind, AuthManager.getSupabase.
  by rewrite Hsb, (request_resolves _ _ _ _ Hr), He.
Qed.

(** C3 (as amended).  When the collaborator's sign-out reports no error,
    [logout] removes [auth_user] and [userProfile] from local storage,
    broadcasts 'authUserCleared' (once from [clearCurrentUser], once
    itself) and returns [{success: true}].  When the sign-out reports an
    error, [logout] returns [{success: false, error}] with the
    collaborator's message and neither clears anything nor broadcasts. *)
Theorem logout_clears_after_sign_out (w : World) (sb : Collaborator) (r : Response) :
  window_supabase w = Some sb ->
  sb (requests w) AuthSignOut = Resolves r ->
  match error r with
  | None =>
      fst (AuthManager.logout w) = Return (succeeded None NoPayload) /\
      localStorage (snd (AuthManager.logout w)) !! "auth_user" = None /\
      localStorage (snd (AuthManager.logout w)) !! "userProfile" = None /\
      broadcast AuthManager.logout w = [authUserCleared; authUserCleared]
  | Some err =>
      fst (AuthManager.logout w) = Return (failure (Some (err_message err))) /\
      localStorage (snd (AuthManager.logout w)) = localStorage w /\
      broadcast AuthManager.logout w = []
  end.
Proof.
  intros Hsb Hr. destruct (error r) as [err|] eqn:He.
  - unfold broadcast. rewrite (logout_sign_out_error_run w sb r err Hsb Hr He). simpl.
    repeat split. apply drop_length_self.
  - unfold broadcast. rewrite (logout_signed_out_run w sb r Hsb Hr He). simpl.
    repeat split.
    + rewrite lookup_delete_ne by done. apply lookup_delete_eq.
    + apply lookup_delete_eq.
    + apply drop_length_app.
Qed.

Lemma logout_clears_after_sign_out_witness :
  let w := browser (Some alice_collaborator) alice_cache in
  fst (AuthManager.logout w) = Return (succeeded None NoPayload) /\
  localStorage (snd (AuthManager.logout w)) !! "auth_user" = None /\
  localStorage (snd (AuthManager.logout w)) !! "userProfile" = None /\
  broadcast AuthManager.logout w = [authUserCleared; authUserCleared].
Proof.
  intros w.
  exact (logout_clears_after_sign_out w alice_collaborator response_ok eq_refl eq_refl).
Defined.

(** C3 fails as stated.  When the sign-out fails, nothing is cleared and
    nothing is broadcast; and when it succeeds, [currentUser] and the three
    display fields are still there. *)
Lemma logout_clears_counterexample :
  (let w := browser (Some unreachable_collaborator) alice_cache in
   fst (AuthManager.logout w) = Return (failure (Some "Failed to fetch")) /\
   localStorage (snd (AuthManager.logout w)) = alice_cache /\
   broadcast AuthManager.logout w = []) /\
  (let w := browser (Some alice_collaborator) alice_cache in
   fst (AuthManager.logout w) = Return (succeeded None NoPayload) /\
   localStorage (snd (AuthManager.logout w)) !! "currentUser" = Some "alice-session" /\
   localStorage (snd (AuthManager.logout w)) !! "mindspend_firstName" = Some "Alice" /\
   localStorage (snd (AuthManager.logout w)) !! "mindspend_lastName" = Some "Liddell" /\
   localStorage (snd (AuthManager.logout w)) !! "mindspend_username" = Some "alice").
Proof.
  split; repeat split; vm_compute; reflexivity.
Qed.

(** ** Logging out when already anonymous *)

(** C6 (as amended).  [logout] has no short-circuit for the anonymous state:
    it always sends [auth.signOut()] to the collaborator.  When the client is
    ANONYMOUS and that call reports no error, [logout] returns
    [{success: true}] and leaves local storage exactly as it was, so the
    client stays ANONYMOUS.  The cache clear itself ([clearCurrentUser])
    never fails and is idempotent: clearing twice leaves the same local
    storage as clearing once. *)
Theorem logout_when_anonymous (w : World) :
  (forall sb r,
     ANONYMOUS w ->
     window_supabase w = Some sb ->
     sb (requests w) AuthSignOut = Resolves r ->
     error r = None ->
     fst (AuthManager.logout w) = Return (succeeded None NoPayload) /\
     issued AuthManager.logout w = [AuthSignOut] /\
     localStorage (snd (AuthManager.logout w)) = localStorage w /\
     ANONYMOUS (snd (AuthManager.logout w))) /\
  fst (AuthManager.clearCurrentUser w) = Return tt /\
  localStorage (snd (AuthManager.clearCurrentUser (snd (AuthManager.clearCurrentUser w))))
    = localStorage (snd (AuthManager.clearCurrentUser w)).
Proof.
  split; [|split].
  - intros sb r Hanon Hsb Hr He.
    assert (Hstore : localStorage (snd (AuthManager.logout w)) = localStorage w).
    { rewrite (logout_signed_out_run w sb r Hsb Hr He). simpl.
      apply clear_absent_keys; apply ANONYMOUS_lookup; simpl; auto. }
    repeat split.
    + by rewrite (logout_signed_out_run w sb r Hsb Hr He).
    + unfold issued. rewrite (logout_signed_out_run w sb r Hsb Hr He). simpl.
      apply drop_length_app.
    + exact Hstore.
    + by apply (ANONYMOUS_same_storage w).
  - reflexivity.
  - rewrite !clearCurrentUser_run. simpl.
    apply clear_absent_keys.
    + rewrite lookup_delete_ne by done. apply lookup_delete_eq.
    + apply lookup_delete_eq.
Qed.

Lemma logout_when_anonymous_witness :
  let w := browser (Some signed_out_collaborator) ∅ in
  ANONYMOUS w /\
  fst (AuthManager.logout w) = Return (succeeded None NoPayload) /\
  issued AuthManager.logout w = [AuthSignOut] /\
  localStorage (snd (AuthManager.logout w)) = localStorage w.
Proof.
  intros w.
  assert (Hanon : ANONYMOUS w) by (repeat constructor).
  destruct (logout_when_anonymous w) as [H _].
  destruct (H signed_out_collaborator response_ok Hanon eq_refl eq_refl eq_refl)
    as (Hret & Hiss & Hstore & _).
  auto.
Defined.

(** C6 fails as stated.  On a page where the client library did not load
    (nobody can be signed in there) [logout] reports an error; on an
    anonymous page with the client initialised it still calls the
    collaborator, and reports the collaborator's error when there is one. *)
Lemma logout_when_anonymous_counterexample :
  (let w := browser None ∅ in
   ANONYMOUS w /\ session_user w = None /\
   fst (AuthManager.logout w) = Return (failure (Some "Supabase not initialized"))) /\
  (let w := browser (Some signed_out_collaborator) ∅ in
   ANONYMOUS w /\ session_user w = None /\
   issued AuthManager.logout w = [AuthSignOut]) /\
  (let w := browser (Some unreachable_collaborator) ∅ in
   ANONYMOUS w /\ session_user w = None /\
   fst (AuthManager.logout w) = Return (failure (Some "Failed to fetch"))).
Proof.
  repeat split; repeat constructor.
Qed.

(** ** The local cache store *)

Section CacheStore.

Context `{JSON}.

Lemma save_run_accepted (v : Value) (text : string) (w : World) :
  JSON_stringify v = Return text ->
  storage_accepts w StorageManager.KEY text = true ->
  StorageManager.save v w =
    (Return tt,
     with_dispatched (dispatched w ++ [storageUpdated (detail_value v)])
       (with_localStorage (<[StorageManager.KEY := text]> (localStorage w)) w)).
Proof.
  intros Hs Hacc.
  unfold StorageManager.save, try_catch, bind, lift, setItem.
  by rewrite Hs, Hacc.
Qed.

(** [save] never throws, whatever the codec and the store do. *)
Lemma save_returns (v : Value) (w : World) :
  fst (StorageManager.save v w) = Return tt.
Proof.
  unfold StorageManager.save, try_catch, bind, lift, setItem, dispatchEvent.
  destruct (JSON_stringify v); [|done].
  by destruct (storage_accepts w StorageManager.KEY a).
Qed.

(** After [clear], [load] gives the absent result and [exists] is false. *)
Lemma clear_then_load (w : World) :
  fst (StorageManager.load (snd (StorageManager.clear w))) = Return VNull /\
  fst (StorageManager.exists_ (snd (StorageManager.clear w))) = Return false.
Proof.
  unfold StorageManager.load, StorageManager.exists_, StorageManager.clear,
    try_catch, bind, getItem, removeItem, dispatchEvent. simpl.
  by rewrite lookup_delete_eq.
Qed.

(** C2 (as amended).  For every JSON-serializable value [v], when the store
    accepts the write (the quota is not exceeded), [save(v)] followed by
    [load()] returns [v]. *)
Theorem save_then_load (v : Value) (w : World) :
  JSON_serializable v ->
  (forall text, JSON_stringify v = Return text ->
                storage_accepts w StorageManager.KEY text = true) ->
  fst (StorageManager.load (snd (StorageManager.save v w))) = Return v.
Proof.
  intros (text & Hs & Hne & Hp) Hacc.
  rewrite (save_run_accepted v text w Hs (Hacc text Hs)). simpl.
  unfold StorageManager.load, try_catch, bind, getItem, lift. simpl.
  rewrite lookup_insert_eq. simpl.
  by rewrite (truthy_nonempty text Hne), Hp.
Qed.

(** C8 (as amended).  A storage-change notification whose key is the
    store's key makes the listener dispatch exactly one 'storageUpdated'
    event, carrying the value the notification's new text denotes, when that
    text parses; when it does not parse the listener throws the parse error
    and dispatches nothing.  A notification for any other key (or for
    [localStorage.clear()], which has no key) dispatches nothing. *)
Theorem storage_notification (e : StorageEvent) (w : World) :
  (ev_key e = Some StorageManager.KEY ->
     match JSON_parse (to_text (ev_newValue e)) with
     | Return v =>
         fst (StorageManager.on_storage e w) = Return tt /\
         broadcast (StorageManager.on_storage e) w = [storageUpdated v]
     | Throw exn =>
         fst (StorageManager.on_storage e w) = Throw exn /\
         broadcast (StorageManager.on_storage e) w = []
     end) /\
  (ev_key e <> Some StorageManager.KEY ->
     fst (StorageManager.on_storage e w) = Return tt /\
     broadcast (StorageManager.on_storage e) w = []).
Proof.
  split.
  - intros Hk. unfold broadcast, StorageManager.on_storage, bind, lift.
    rewrite decide_True by done.
    destruct (JSON_parse _) as [v|exn]; simpl.
    + split; [done | apply drop_length_app].
    + split; [done | apply drop_length_self].
  - intros Hk. unfold broadcast, StorageManager.on_storage.
    rewrite decide_False by done. simpl.
    split; [done | apply drop_length_self].
Qed.

End CacheStore.

Lemma literal_true_serializable : @JSON_serializable literal_JSON (VBool true).
Proof. exists "true". repeat split. discriminate. Qed.

Lemma save_then_load_witness :
  fst (@StorageManager.load literal_JSON
         (snd (@StorageManager.save literal_JSON (VBool true) (browser None ∅))))
    = Return (VBool true).
Proof.
  apply (@save_then_load literal_JSON (VBool true) (browser None ∅)).
  - exists "true". repeat split. discriminate.
  - intros text Htext. injection Htext as <-. reflexivity.
Defined.

(** C2 fails as stated: when the store has no room, [save] swallows the
    quota error and [load] finds nothing, although the value is
    JSON-serializable. *)
Lemma save_then_load_counterexample :
  @JSON_serializable literal_JSON (VBool true) /\
  storage_accepts full_browser StorageManager.KEY "true" = false /\
  fst (@StorageManager.save literal_JSON (VBool true) full_browser) = Return tt /\
  fst (@StorageManager.load literal_JSON
         (snd (@StorageManager.save literal_JSON (VBool true) full_browser)))
    = Return VNull.
Proof.
  split; [apply literal_true_serializable | repeat split].
Qed.

(** Another tab saved [true]; another tab removed the key; another tab
    wrote a text that is not JSON; a third-party key changed. *)
Lemma storage_notification_witness :
  broadcast (@StorageManager.on_storage literal_JSON
               {| ev_key := Some StorageManager.KEY; ev_newValue := Some "true" |})
            (browser None ∅)
    = [storageUpdated (VBool true)] /\
  broadcast (@StorageManager.on_storage literal_JSON
               {| ev_key := Some StorageManager.KEY; ev_newValue := None |})
            (browser None ∅)
    = [storageUpdated VNull] /\
  broadcast (@StorageManager.on_storage literal_JSON
               {| ev_key := Some StorageManager.KEY; ev_newValue := Some "{oops" |})
            (browser None ∅)
    = [] /\
  broadcast (@StorageManager.on_storage literal_JSON
               {| ev_key := Some "auth_user"; ev_newValue := Some "true" |})
            (browser None ∅)
    = [].
Proof.
  split; [|split; [|split]].
  - apply (proj1 (@storage_notification literal_JSON
                    {| ev_key := Some StorageManager.KEY; ev_newValue := Some "true" |}
                    (browser None ∅)) eq_refl).
  - apply (proj1 (@storage_notification literal_JSON
                    {| ev_key := Some StorageManager.KEY; ev_newValue := None |}
                    (browser None ∅)) eq_refl).
  - apply (proj1 (@storage_notification literal_JSON
                    {| ev_key := Some StorageManager.KEY; ev_newValue := Some "{oops" |}
                    (browser None ∅)) eq_refl).
  - apply (@storage_notification literal_JSON
             {| ev_key := Some "auth_user"; ev_newValue := Some "true" |}
             (browser None ∅)). discriminate.
Defined.

(** C8 fails as stated: not every notification for the store's key is
    re-broadcast.  One tab calls [save(undefined)]: the store accepts the
    text 'undefined'.  The notification another tab receives carries that
    text as its new value; it is not JSON, the unguarded listener throws and
    no event is dispatched. *)
Lemma storage_notification_counterexample :
  let first := snd (@StorageManager.save literal_JSON VUndefined (browser None ∅)) in
  let notification :=
    {| ev_key := Some StorageManager.KEY;
       ev_newValue := localStorage first !! StorageManager.KEY |} in
  ev_newValue notification = Some "undefined" /\
  fst (@StorageManager.on_storage literal_JSON notification (browser None alice_cache))
    = Throw (SyntaxError "Unexpected token") /\
  broadcast (@StorageManager.on_storage literal_JSON notification) (browser None alice_cache)
    = [].
Proof. repeat split. Qed.

(** ** Display-name resolution *)

(** The fallback chain as [loadUserProfileNameData] implements it, once
    [this.user] is set: with no cached field and no profile row, Bob's name
    is the local part of his email. *)
Lemma loadUserProfileNameData_with_user :
  fst (Navigation.loadUserProfileNameData (Navigation.set_user (Some bob) Navigation.initial)
         (browser (Some bob_collaborator) ∅))
    = Return {| nav_user := Some bob; nav_displayName := Some "bob" |}.
Proof. reflexivity. Qed.

(** At page load [init] resolves the name while [this.user] is still null:
    without a cached display field the name is 'Guest', whoever is signed
    in, and no profile is fetched. *)
Lemma loadUserProfileNameData_at_init (w : World) :
  no_cached_name w ->
  Navigation.loadUserProfileNameData Navigation.initial w =
    (Return (Navigation.set_displayName "Guest" Navigation.initial), w).
Proof.
  intros [Hf Hu].
  unfold Navigation.loadUserProfileNameData, try_catch, bind, getItem. simpl.
  rewrite Hf, Hu. simpl.
  destruct (truthy_opt _); reflexivity.
Qed.

Lemma init_without_cached_name (w : World) :
  no_cached_name w ->
  AuthManager_defined w = true ->
  main_nav w = None ->
  fst (Navigation.init Navigation.initial w)
    = Return {| nav_user := session_user w; nav_displayName := Some "Guest" |} /\
  main_nav (snd (Navigation.init Navigation.initial w))
    = Some (match session_user w with
            | Some _ => UserMenu "Guest"
            | None => SignInButton
            end).
Proof.
  intros Hn Hd Hm.
  unfold Navigation.init, bind.
  rewrite (loadUserProfileNameData_at_init w Hn).
  unfold Navigation.AuthManager_is_defined. rewrite Hd.
  rewrite getCurrentUser_run.
  unfold ret, Navigation.injectNav, after_lookup.
  destruct (window_supabase w) eqn:Hsb; simpl; rewrite Hm; simpl.
  - split; [done|]. unfold Navigation.generateNavHTML, Navigation.isAuthenticated. simpl.
    by destruct (session_user w).
  - split; [done|]. unfold session_user. by rewrite Hsb.
Qed.

(** C9 on the code: no stored display-name field, no profile row, Bob
    (bob@example.com) signed in.  [Navigation.init] leaves 'Guest' as the
    display name and renders the user menu with the name 'Guest'; the claim
    says 'bob'. *)
Theorem init_renders_Guest_for_bob :
  let w := browser (Some bob_collaborator) ∅ in
  session_user w = Some bob /\
  no_cached_name w /\
  fst (Navigation.init Navigation.initial w)
    = Return {| nav_user := Some bob; nav_displayName := Some "Guest" |} /\
  main_nav (snd (Navigation.init Navigation.initial w)) = Some (UserMenu "Guest").
Proof. repeat split. Qed.

(** * Further properties *)

(** ** The local cache store: failures and composition *)

Section CacheStoreMore.

Context `{JSON}.

(** X1.  [load] gives the absent result [null], without throwing and without
    touching anything, when the key is unset, holds the empty string, or
    holds a text that does not parse. *)
Theorem load_unreadable_slot (w : World) :
  unreadable (localStorage w !! StorageManager.KEY) ->
  StorageManager.load w = (Return VNull, w).
Proof.
  intros Hslot.
  unfold StorageManager.load, try_catch, bind, getItem, lift.
  destruct Hslot as [-> | [-> | (text & e & -> & Hp)]]; [done | done |].
  simpl. destruct (truthy text); [by rewrite Hp | done].
Qed.

(** X2.  When the value cannot be serialized or the store refuses the write,
    [save] returns normally and changes nothing: no item, no event. *)
Theorem save_rejected_changes_nothing (v : Value) (w : World) :
  ((exists e, JSON_stringify v = Throw e) \/
   (exists text, JSON_stringify v = Return text /\
                 storage_accepts w StorageManager.KEY text = false)) ->
  StorageManager.save v w = (Return tt, w).
Proof.
  unfold StorageManager.save, try_catch, bind, lift, setItem.
  intros [(e & ->) | (text & -> & ->)]; reflexivity.
Qed.

(** X3.  When the write is accepted, [save] dispatches exactly one
    'storageUpdated' event, [exists] is true afterwards, and every other key
    of local storage is left as it was.  The event carries the value saved,
    except that [save(undefined)] -- which stores the text 'undefined' --
    dispatches an event whose detail is [null]. *)
Theorem save_accepted_effects (v : Value) (text : string) (w : World) :
  JSON_stringify v = Return text ->
  storage_accepts w StorageManager.KEY text = true ->
  broadcast (StorageManager.save v) w = [storageUpdated (detail_value v)] /\
  (v <> VUndefined -> broadcast (StorageManager.save v) w = [storageUpdated v]) /\
  fst (StorageManager.exists_ (snd (StorageManager.save v w))) = Return true /\
  forall k, k <> StorageManager.KEY ->
            localStorage (snd (StorageManager.save v w)) !! k = localStorage w !! k.
Proof.
  intros Hs Hacc. unfold broadcast.
  rewrite (save_run_accepted v text w Hs Hacc). simpl.
  split; [apply drop_length_app|]. split; [|split].
  - intros Hv. rewrite drop_length_app. by destruct v.
  - unfold StorageManager.exists_, bind, getItem. simpl. by rewrite lookup_insert_eq.
  - intros k Hk. by rewrite lookup_insert_ne.
Qed.

(** X4.  [clear] removes the item, dispatches one 'storageCleared' event and
    leaves the other keys alone; afterwards [load] gives the absent result
    and [exists] is false, and clearing again changes nothing more in local
    storage. *)
Theorem clear_effects (w : World) :
  localStorage (snd (StorageManager.clear w)) = delete StorageManager.KEY (localStorage w) /\
  broadcast StorageManager.clear w = [storageCleared] /\
  fst (StorageManager.load (snd (StorageManager.clear w))) = Return VNull /\
  fst (StorageManager.exists_ (snd (StorageManager.clear w))) = Return false /\
  localStorage (snd (StorageManager.clear (snd (StorageManager.clear w))))
    = localStorage (snd (StorageManager.clear w)).
Proof.
  unfold broadcast, StorageManager.load, StorageManager.exists_, StorageManager.clear,
    try_catch, bind, getItem, removeItem, dispatchEvent. simpl.
  rewrite lookup_delete_eq. simpl.
  split; [done|]. split; [apply drop_length_app|].
  repeat split. apply delete_id, lookup_delete_eq.
Qed.

(** X5.  The storage listener is unguarded: a notification for the store's
    key whose text does not parse makes the listener throw that parse error,
    and nothing is dispatched. *)
Theorem on_storage_corrupt_text (e : StorageEvent) (exn : Exn) (w : World) :
  ev_key e = Some StorageManager.KEY ->
  JSON_parse (to_text (ev_newValue e)) = Throw exn ->
  StorageManager.on_storage e w = (Throw exn, w).
Proof.
  intros Hk Hp. unfold StorageManager.on_storage, bind, lift.
  rewrite decide_True by done. by rewrite Hp.
Qed.

(** X6.  What [save] writes in one tab is what the listener of another tab
    re-broadcasts: the text stored for a JSON-serializable value, delivered
    as the new value of a storage notification, yields one 'storageUpdated'
    event carrying that value. *)
Theorem save_reaches_other_tab (v : Value) (w other : World) :
  JSON_serializable v ->
  (forall text, JSON_stringify v = Return text ->
                storage_accepts w StorageManager.KEY text = true) ->
  exists text,
    localStorage (snd (StorageManager.save v w)) !! StorageManager.KEY = Some text /\
    broadcast (StorageManager.on_storage
                 {| ev_key := Some StorageManager.KEY; ev_newValue := Some text |}) other
      = [storageUpdated v].
Proof.
  intros (text & Hs & Hne & Hp) Hacc. exists text.
  rewrite (save_run_accepted v text w Hs (Hacc text Hs)). simpl.
  split; [apply lookup_insert_eq|].
  unfold broadcast, StorageManager.on_storage, bind, lift.
  rewrite decide_True by done. simpl. rewrite Hp. simpl. apply drop_length_app.
Qed.

End CacheStoreMore.

Lemma load_unreadable_slot_witness :
  @StorageManager.load literal_JSON
     (browser None {[ StorageManager.KEY := "{oops" ]})
  = (Return VNull, browser None {[ StorageManager.KEY := "{oops" ]}).
Proof.
  apply (@load_unreadable_slot literal_JSON).
  right. right. exists "{oops", (SyntaxError "Unexpected token"). split; reflexivity.
Defined.

Lemma save_rejected_changes_nothing_witness :
  @StorageManager.save literal_JSON (VBool true) full_browser = (Return tt, full_browser) /\
  @StorageManager.save literal_JSON lunch (browser None ∅) = (Return tt, browser None ∅).
Proof.
  split.
  - apply (@save_rejected_changes_nothing literal_JSON).
    right. exists "true". split; reflexivity.
  - apply (@save_rejected_changes_nothing literal_JSON).
    left. eexists. reflexivity.
Defined.

Lemma save_accepted_effects_witness :
  broadcast (@StorageManager.save literal_JSON (VBool false)) (browser None alice_cache)
    = [storageUpdated (VBool false)] /\
  localStorage (snd (@StorageManager.save literal_JSON (VBool false) (browser None alice_cache)))
    !! "mindspend_username" = Some "alice" /\
  broadcast (@StorageManager.save literal_JSON VUndefined) (browser None alice_cache)
    = [storageUpdated VNull].
Proof.
  destruct (@save_accepted_effects literal_JSON (VBool false) "false"
              (browser None alice_cache) eq_refl eq_refl) as (Hb & _ & _ & Hk).
  destruct (@save_accepted_effects literal_JSON VUndefined "undefined"
              (browser None alice_cache) eq_refl eq_refl) as (Hu & _).
  split; [exact Hb|]. split; [|exact Hu].
  rewrite (Hk "mindspend_username"); [reflexivity | discriminate].
Defined.

Lemma on_storage_corrupt_text_witness :
  @StorageManager.on_storage literal_JSON
     {| ev_key := Some StorageManager.KEY; ev_newValue := Some "{oops" |} (browser None ∅)
  = (Throw (SyntaxError "Unexpected token"), browser None ∅).
Proof.
  apply (@on_storage_corrupt_text literal_JSON); reflexivity.
Defined.

Lemma save_reaches_other_tab_witness :
  exists text,
    localStorage (snd (@StorageManager.save literal_JSON (VBool true) (browser None ∅)))
      !! StorageManager.KEY = Some text /\
    broadcast (@StorageManager.on_storage literal_JSON
                 {| ev_key := Some StorageManager.KEY; ev_newValue := Some text |})
              (browser None alice_cache)
      = [storageUpdated (VBool true)].
Proof.
  apply (@save_reaches_other_tab literal_JSON (VBool true) (browser None ∅)
           (browser None alice_cache)).
  - apply literal_true_serializable.
  - intros text Htext. injection Htext as <-. reflexivity.
Defined.

(** ** The local session: [auth_user], [currentUser], [userProfile] *)

Lemma after_lookup_frame (w : World) :
  localStorage (after_lookup w) = localStorage w /\
  dispatched (after_lookup w) = dispatched w /\
  storage_quota (after_lookup w) = storage_quota w.
Proof. unfold after_lookup. by destruct (window_supabase w). Qed.

(** The profile fetch only talks to the collaborator. *)
Lemma getCurrentProfile_frame (w : World) :
  exists p w',
    AuthManager.getCurrentProfile w = (Return p, w') /\
    localStorage w' = localStorage w /\
    dispatched w' = dispatched w /\
    storage_quota w' = storage_quota w.
Proof.
  destruct (after_lookup_frame w) as (Hl & Hd & Hq).
  unfold AuthManager.getCurrentProfile, try_catch, bind, AuthManager.getSupabase.
  rewrite getCurrentUser_run.
  destruct (session_user w) as [u|]; [|by eexists _, _].
  rewrite after_lookup_supabase.
  destruct (window_supabase w) as [sb|]; [|by eexists _, _].
  unfold request.
  destruct (sb _ _) as [r|e]; [|by eexists _, _].
  destruct (error r) as [err|]; [|by eexists _, _].
  destruct (String.eqb _ _); by eexists _, _.
Qed.

Section LocalSession.

Context `{JSON}.

Lemma getCurrentUserLocal_no_item (w : World) :
  localStorage w !! "auth_user" = None ->
  AuthManagerSession.getCurrentUserLocal w = (Return VNull, w).
Proof.
  intros Hk. unfold AuthManagerSession.getCurrentUserLocal, try_catch, bind, getItem.
  by rewrite Hk.
Qed.

Lemma checkAuth_same_slot (w w' : World) :
  localStorage w' !! "auth_user" = localStorage w !! "auth_user" ->
  fst (AuthManagerSession.checkAuth w') = fst (AuthManagerSession.checkAuth w).
Proof.
  intros Hk.
  unfold AuthManagerSession.checkAuth, AuthManagerSession.getCurrentUserLocal,
    try_catch, bind, getItem, lift, ret.
  rewrite Hk.
  destruct (truthy_opt _); [|done].
  by destruct (JSON_parse _).
Qed.

(** X7.  [setCurrentUser] followed by [getCurrentUserLocal] gives the stored
    value back, for a JSON-serializable value and a store that accepts the
    write; [checkAuth] then says whether that value is not null.  The
    'authUserUpdated' event is dispatched for every value but null and
    undefined: for those the item is written and the announcement is
    lost. *)
Theorem setCurrentUser_round_trip (userData : Value) (w : World) :
  JSON_serializable userData ->
  (forall text, JSON_stringify userData = Return text ->
                storage_accepts w "auth_user" text = true) ->
  fst (AuthManagerSession.setCurrentUser userData w) = Return tt /\
  fst (AuthManagerSession.getCurrentUserLocal
         (snd (AuthManagerSession.setCurrentUser userData w))) = Return userData /\
  fst (AuthManagerSession.checkAuth
         (snd (AuthManagerSession.setCurrentUser userData w)))
    = Return (is_not_null userData) /\
  broadcast (AuthManagerSession.setCurrentUser userData) w
    = if is_null_or_undefined userData then [] else [authUserUpdated userData].
Proof.
  intros (text & Hs & Hne & Hp) Hacc.
  pose proof (Hacc text Hs) as Hok.
  assert (Hrun : exists evs,
             AuthManagerSession.setCurrentUser userData w =
               (Return tt, with_dispatched (dispatched w ++ evs)
                             (with_localStorage (<["auth_user" := text]> (localStorage w)) w)) /\
             evs = if is_null_or_undefined userData then [] else [authUserUpdated userData]).
  { unfold AuthManagerSession.setCurrentUser, try_catch, bind, lift, setItem.
    rewrite Hs, Hok.
    destruct userData; simpl; eexists; (split; [|reflexivity]);
      rewrite ?app_nil_r; reflexivity. }
  destruct Hrun as (evs & Hrun & Hevs).
  unfold broadcast, AuthManagerSession.checkAuth, bind.
  rewrite Hrun. simpl.
  assert (Hget : forall d,
             AuthManagerSession.getCurrentUserLocal
               (with_dispatched d
                  (with_localStorage (<["auth_user" := text]> (localStorage w)) w))
             = (Return userData,
                with_dispatched d
                  (with_localStorage (<["auth_user" := text]> (localStorage w)) w))).
  { intros d. unfold AuthManagerSession.getCurrentUserLocal, try_catch, bind, getItem, lift.
    simpl. rewrite lookup_insert_eq. simpl.
    by rewrite (truthy_nonempty text Hne), Hp. }
  rewrite Hget. simpl.
  repeat split. rewrite drop_length_app. exact Hevs.
Qed.

(** X8.  After [clearCurrentUser], and after every [logout] that reports
    success, [checkAuth] is false. *)
Theorem checkAuth_false_after_logout (w : World) :
  fst (AuthManagerSession.checkAuth (snd (AuthManager.clearCurrentUser w))) = Return false /\
  (forall env,
     fst (AuthManager.logout w) = Return env ->
     success env = true ->
     fst (AuthManagerSession.checkAuth (snd (AuthManager.logout w))) = Return false).
Proof.
  assert (Hno : forall w0, localStorage w0 !! "auth_user" = None ->
                           fst (AuthManagerSession.checkAuth w0) = Return false).
  { intros w0 Hk. unfold AuthManagerSession.checkAuth, bind.
    by rewrite (getCurrentUserLocal_no_item w0 Hk). }
  split.
  - apply Hno. rewrite clearCurrentUser_run. simpl.
    rewrite lookup_delete_ne by done. apply lookup_delete_eq.
  - intros env Hret Hsucc. apply Hno. revert Hret.
    unfold AuthManager.logout, try_catch, bind, AuthManager.getSupabase, request.
    destruct (window_supabase w) as [sb|]; simpl;
      [| intros [= <-]; discriminate Hsucc].
    destruct (sb (requests w) AuthSignOut) as [r|e]; simpl;
      [| intros [= <-]; discriminate Hsucc].
    destruct (error r); simpl; [intros [= <-]; discriminate Hsucc|].
    intros _. rewrite lookup_delete_ne by done. apply lookup_delete_eq.
Qed.

Lemma storeUserData_keeps_auth_user (user : option User) (profile : option Profile) (w : World) :
  localStorage (snd (AuthManagerSession.storeUserData user profile w)) !! "auth_user"
    = localStorage w !! "auth_user" /\
  dispatched (snd (AuthManagerSession.storeUserData user profile w)) = dispatched w.
Proof.
  unfold AuthManagerSession.storeUserData, bind, lift, setItem.
  destruct (JSON_stringify (user_value user)) as [tu|]; [|done].
  destruct (storage_accepts w "currentUser" tu); [|done].
  destruct (JSON_stringify (profile_value profile)) as [tp|]; simpl;
    [| by rewrite lookup_insert_ne].
  destruct (storage_accepts _ "userProfile" tp); simpl;
    by rewrite ?lookup_insert_ne.
Qed.

(** X9.  [login] never writes [auth_user], the key [checkAuth] reads: after
    any login -- refused, successful or failed half-way -- [checkAuth]
    answers what it answered before. *)
Theorem login_does_not_change_checkAuth (email password : string) (w : World) :
  localStorage (snd (AuthManagerSession.login email password w)) !! "auth_user"
    = localStorage w !! "auth_user" /\
  fst (AuthManagerSession.checkAuth (snd (AuthManagerSession.login email password w)))
    = fst (AuthManagerSession.checkAuth w).
Proof.
  assert (Hslot : localStorage (snd (AuthManagerSession.login email password w)) !! "auth_user"
                  = localStorage w !! "auth_user").
  { unfold AuthManagerSession.login, try_catch, bind, AuthManager.getSupabase, request.
    destruct (window_supabase w) as [sb|]; [|done].
    destruct (sb (requests w) _) as [r|e]; [|done].
    destruct (error r); [done|].
    match goal with
    | |- context [AuthManager.getCurrentProfile ?w1] =>
        destruct (getCurrentProfile_frame w1) as (p & w2 & -> & Hl & _)
    end.
    pose proof (storeUserData_keeps_auth_user (data_user r) p w2) as [Hs _].
    destruct (AuthManagerSession.storeUserData (data_user r) p w2) as [[[]|e] w3];
      simpl in *; by rewrite Hs, Hl. }
  split; [exact Hslot | by apply checkAuth_same_slot].
Qed.

(** X10.  When the collaborator refuses the sign-in, [login] returns its
    message in a failure envelope, and nothing is cached or announced. *)
Theorem login_refused (email password : string) (w : World)
    (sb : Collaborator) (r : Response) (err : ApiError) :
  window_supabase w = Some sb ->
  sb (requests w) (AuthSignInWithPassword email password) = Resolves r ->
  error r = Some err ->
  AuthManagerSession.login email password w =
    (Return (login_failure (Some (err_message err))),
     with_requests (requests w ++ [AuthSignInWithPassword email password]) w).
Proof.
  intros Hsb Hr He.
  unfold AuthManagerSession.login, try_catch, bind, AuthManager.getSupabase.
  by rewrite Hsb, (request_resolves _ _ _ _ Hr), He.
Qed.

(** X11.  A successful [login] caches the JSON text of the signed-in user
    under [currentUser] and of the fetched profile under [userProfile],
    dispatches one 'authUserUpdated' event carrying both, and returns
    [{success: true, user, profile}]. *)
Theorem login_caches_session (email password : string) (w w2 : World)
    (sb : Collaborator) (r : Response) (profile : option Profile) (tu tp : string) :
  window_supabase w = Some sb ->
  sb (requests w) (AuthSignInWithPassword email password) = Resolves r ->
  error r = None ->
  AuthManager.getCurrentProfile
    (with_requests (requests w ++ [AuthSignInWithPassword email password]) w)
    = (Return profile, w2) ->
  JSON_stringify (user_value (data_user r)) = Return tu ->
  JSON_stringify (profile_value profile) = Return tp ->
  storage_accepts w2 "currentUser" tu = true ->
  storage_accepts (with_localStorage (<["currentUser" := tu]> (localStorage w2)) w2)
    "userProfile" tp = true ->
  let w' := snd (AuthManagerSession.login email password w) in
  fst (AuthManagerSession.login email password w)
    = Return {| login_base := succeeded None NoPayload;
                login_session := Some (data_user r, profile) |} /\
  localStorage w' !! "currentUser" = Some tu /\
  localStorage w' !! "userProfile" = Some tp /\
  broadcast (AuthManagerSession.login email password) w
    = [authUserUpdated (VObj [("user", user_value (data_user r));
                              ("profile", profile_value profile)])].
Proof.
  intros Hsb Hr He Hprof Hsu Hsp Hau Hap w'.
  destruct (getCurrentProfile_frame
              (with_requests (requests w ++ [AuthSignInWithPassword email password]) w))
    as (p0 & w0 & Hrun & _ & Hd & _).
  rewrite Hprof in Hrun. injection Hrun as <- <-. simpl in Hd.
  unfold w', broadcast.
  unfold AuthManagerSession.login, try_catch, bind, AuthManager.getSupabase.
  rewrite Hsb, (request_resolves _ _ _ _ Hr), He, Hprof.
  unfold AuthManagerSession.storeUserData, bind, lift, setItem.
  rewrite Hsu, Hau, Hsp, Hap. simpl.
  repeat split.
  - rewrite lookup_insert_ne by done. apply lookup_insert_eq.
  - apply lookup_insert_eq.
  - rewrite Hd. apply drop_length_app.
Qed.

(** X12.  [storeUserData] followed by [getCachedUserData] gives the user and
    the profile back, when both have JSON texts and the store accepts both
    writes. *)
Theorem storeUserData_round_trip (user : option User) (profile : option Profile) (w : World) :
  JSON_serializable (user_value user) ->
  JSON_serializable (profile_value profile) ->
  (forall tu, JSON_stringify (user_value user) = Return tu ->
     storage_accepts w "currentUser" tu = true /\
     forall tp, JSON_stringify (profile_value profile) = Return tp ->
       storage_accepts (with_localStorage (<["currentUser" := tu]> (localStorage w)) w)
         "userProfile" tp = true) ->
  fst (AuthManagerSession.getCachedUserData
         (snd (AuthManagerSession.storeUserData user profile w)))
    = Return (user_value user, profile_value profile).
Proof.
  intros (tu & Hsu & Hnu & Hpu) (tp & Hsp & Hnp & Hpp) Hacc.
  destruct (Hacc tu Hsu) as [Hau Hap]. specialize (Hap tp Hsp).
  unfold AuthManagerSession.storeUserData, bind, lift, setItem.
  rewrite Hsu, Hau, Hsp, Hap. simpl.
  unfold AuthManagerSession.getCachedUserData, bind, getItem, lift. simpl.
  rewrite lookup_insert_ne by done. rewrite !lookup_insert_eq. simpl.
  by rewrite (truthy_nonempty tu Hnu), (truthy_nonempty tp Hnp), Hpu, Hpp.
Qed.

End LocalSession.

Lemma alice_user_serializable : @JSON_serializable alice_JSON (user_value (Some alice)).
Proof. eexists. split; [reflexivity|]. split; [discriminate | reflexivity]. Qed.

Lemma alice_profile_serializable :
  @JSON_serializable alice_JSON (profile_value (Some alice_profile)).
Proof. eexists. split; [reflexivity|]. split; [discriminate | reflexivity]. Qed.

Lemma setCurrentUser_round_trip_witness :
  fst (@AuthManagerSession.getCurrentUserLocal alice_JSON
         (snd (@AuthManagerSession.setCurrentUser alice_JSON (user_value (Some alice))
                 (browser None ∅))))
    = Return (user_value (Some alice)) /\
  broadcast (@AuthManagerSession.setCurrentUser alice_JSON (user_value (Some alice)))
            (browser None ∅)
    = [authUserUpdated (user_value (Some alice))].
Proof.
  destruct (@setCurrentUser_round_trip alice_JSON (user_value (Some alice)) (browser None ∅))
    as (_ & Hget & _ & Hev).
  - apply alice_user_serializable.
  - intros text Htext. injection Htext as <-. reflexivity.
  - split; [exact Hget | exact Hev].
Defined.

Lemma checkAuth_false_after_logout_witness :
  fst (@AuthManagerSession.checkAuth alice_JSON
         (snd (AuthManager.logout (browser (Some alice_collaborator) alice_cache))))
    = Return false.
Proof.
  destruct (@checkAuth_false_after_logout alice_JSON
              (browser (Some alice_collaborator) alice_cache)) as [_ H].
  apply (H (succeeded None NoPayload)); reflexivity.
Defined.

Lemma login_refused_witness :
  fst (@AuthManagerSession.login alice_JSON "bob@example.com" "guess"
         (browser (Some wrong_password_collaborator) ∅))
    = Return (login_failure (Some "Invalid login credentials")) /\
  localStorage (snd (@AuthManagerSession.login alice_JSON "bob@example.com" "guess"
                       (browser (Some wrong_password_collaborator) ∅))) = ∅.
Proof.
  rewrite (@login_refused alice_JSON "bob@example.com" "guess"
             (browser (Some wrong_password_collaborator) ∅) wrong_password_collaborator
             (response_error "invalid_credentials" "Invalid login credentials")
             {| err_code := "invalid_credentials"; err_message := "Invalid login credentials" |}
             eq_refl eq_refl eq_refl).
  split; reflexivity.
Defined.

(** The scenario of the specification: [login('a@x.com', 'pw')] succeeds. *)
Lemma login_caches_session_witness :
  let w := browser (Some alice_login_collaborator) ∅ in
  fst (@AuthManagerSession.login alice_JSON "a@x.com" "pw" w)
    = Return {| login_base := succeeded None NoPayload;
                login_session := Some (Some alice, Some alice_profile) |} /\
  fst (@AuthManagerSession.getCachedUserData alice_JSON
         (snd (@AuthManagerSession.login alice_JSON "a@x.com" "pw" w)))
    = Return (user_value (Some alice), profile_value (Some alice_profile)).
Proof.
  intros w.
  destruct (@login_caches_session alice_JSON "a@x.com" "pw" w
              (snd (AuthManager.getCurrentProfile
                      (with_requests [AuthSignInWithPassword "a@x.com" "pw"] w)))
              alice_login_collaborator (response_user alice) (Some alice_profile)
              (match print (user_value (Some alice)) with Some t => t | None => "" end)
              (match print (profile_value (Some alice_profile)) with Some t => t | None => "" end)
              eq_refl eq_refl eq_refl eq_refl eq_refl eq_refl eq_refl eq_refl)
    as (Hret & _ & _ & _).
  split; [exact Hret | reflexivity].
Defined.

Lemma storeUserData_round_trip_witness :
  fst (@AuthManagerSession.getCachedUserData alice_JSON
         (snd (@AuthManagerSession.storeUserData alice_JSON (Some alice) (Some alice_profile)
                 (browser None ∅))))
    = Return (user_value (Some alice), profile_value (Some alice_profile)).
Proof.
  apply (@storeUserData_round_trip alice_JSON (Some alice) (Some alice_profile)
           (browser None ∅)).
  - apply alice_user_serializable.
  - apply alice_profile_serializable.
  - intros tu Htu. injection Htu as <-. split; [reflexivity|].
    intros tp Htp. injection Htp as <-. reflexivity.
Defined.

(** ** The manager without a client *)

(** X13.  When the client library did not load, [initSupabase] leaves the
    client null, and from then on every operation of the manager fails fast:
    the lookups return null and the operations return
    [{success: false, error: 'Supabase not initialized'}], without a request
    and without touching the page. *)
Theorem uninitialised_client_fails_fast `{JSON} `{CaseMapping} (w0 : World) :
  let w := snd (initSupabase None w0) in
  AuthManager.getCurrentUser w = (Return None, w) /\
  AuthManager.getCurrentProfile w = (Return None, w) /\
  AuthManagerSession.getAccessToken w = (Return None, w) /\
  AuthManager.logout w = (Return not_initialized, w) /\
  (forall email password username firstName lastName,
     AuthManager.register email password username firstName lastName w
       = (Return not_initialized, w) /\
     AuthManagerLegacy.register email password username firstName lastName w
       = (Return not_initialized, w)) /\
  (forall email password,
     AuthManagerSession.login email password w
       = (Return (login_failure (Some "Supabase not initialized")), w)) /\
  (forall currentPassword newPassword,
     AuthManager.changePassword currentPassword newPassword w = (Return not_initialized, w) /\
     AuthManagerLegacy.changePassword currentPassword newPassword w
       = (Return not_initialized, w) /\
     AuthManagerSession.updatePasswordWithToken newPassword w = (Return not_initialized, w)) /\
  (forall profileData,
     AuthManager.updateProfile profileData w = (Return not_initialized, w)).
Proof. repeat split. Qed.

(** ** The facade's password operations *)

Lemma try_catch_idle {A} (body : Action A) (handler : Exn -> Action A) (w : World) :
  (exists a, fst (body w) = Return a) -> try_catch body handler w = body w.
Proof.
  intros [a Ha]. unfold try_catch.
  destruct (body w) as [[a' | e] w']; [done | discriminate Ha].
Qed.

(** X14.  The facade adds nothing to the manager's own envelopes: its
    [changePassword], [updatePasswordWithToken] and [updateUserProfile]
    return exactly what the manager returns, in the same world -- the
    facade's catch block is never entered. *)
Theorem facade_returns_manager_envelope `{CaseMapping} (w : World) :
  (forall currentPassword newPassword,
     APIPassword.changePassword currentPassword newPassword w
       = AuthManager.changePassword currentPassword newPassword w) /\
  (forall newPassword,
     APIPassword.updatePasswordWithToken newPassword w
       = AuthManagerSession.updatePasswordWithToken newPassword w) /\
  (forall profileData,
     API.updateUserProfile profileData w = AuthManager.updateProfile profileData w).
Proof.
  repeat split; intros; apply try_catch_idle; apply try_catch_returns;
    intros e w'; by eexists.
Qed.

(** ** Changing the password: the update step *)

Lemma update_error_message_nonempty `{CaseMapping} (msg : string) :
  AuthManager.update_error_message msg <> "".
Proof.
  unfold AuthManager.update_error_message.
  destruct (includes _ "same"); [discriminate|].
  destruct (includes _ "password"); [discriminate|].
  destruct (_ || _); [discriminate|].
  destruct msg; discriminate.
Qed.

(** X15.  Neither copy of [changePassword] sends an [updateUser] request
    unless somebody is signed in and the collaborator accepted the current
    password; and the password it then sends is the new one. *)
Theorem update_only_after_verification `{CaseMapping}
    (currentPassword newPassword password : string) (w : World) :
  In (AuthUpdateUser password)
     (issued (AuthManager.changePassword currentPassword newPassword) w) \/
  In (AuthUpdateUser password)
     (issued (AuthManagerLegacy.changePassword currentPassword newPassword) w) ->
  password = newPassword /\
  exists sb u r,
    window_supabase w = Some sb /\
    session_user w = Some u /\
    sb (requests w ++ [AuthGetUser])
       (AuthSignInWithPassword (user_email u) currentPassword) = Resolves r /\
    error r = None.
Proof.
  unfold issued.
  intros [Hin | Hin]; revert Hin.
  - unfold AuthManager.changePassword, try_catch, bind, AuthManager.getSupabase,
      session_user, request.
    destruct (window_supabase w) as [sb|]; simpl;
      [| rewrite drop_length_self; intros []].
    destruct (sb (requests w) AuthGetUser) as [r0|e0]; simpl;
      [| rewrite drop_length_app; intros [Hc|[]]; discriminate Hc].
    destruct (error r0); simpl;
      [rewrite drop_length_app; intros [Hc|[]]; discriminate Hc|].
    destruct (data_user r0) as [u|]; simpl;
      [| rewrite drop_length_app; intros [Hc|[]]; discriminate Hc].
    destruct (sb (requests w ++ [AuthGetUser]) _) as [r|e] eqn:Hr; simpl;
      [| rewrite <- app_assoc, drop_length_app; intros [Hc|[Hc|[]]]; discriminate Hc].
    destruct (error r) eqn:He; simpl;
      [rewrite <- app_assoc, drop_length_app; intros [Hc|[Hc|[]]]; discriminate Hc|].
    intros Hin.
    assert (Hin' : In (AuthUpdateUser password)
                      [AuthGetUser; AuthSignInWithPassword (user_email u) currentPassword;
                       AuthUpdateUser newPassword]).
    { destruct (sb _ (AuthUpdateUser newPassword)) as [r2|e2]; simpl in Hin;
        [destruct (error r2); simpl in Hin|];
        by rewrite <- !app_assoc, drop_length_app in Hin. }
    destruct Hin' as [Hc|[Hc|[Hc|[]]]]; try discriminate Hc.
    injection Hc as <-. split; [done|]. by exists sb, u, r.
  - unfold AuthManagerLegacy.changePassword, try_catch, bind, AuthManager.getSupabase.
    destruct (window_supabase w) as [sb|] eqn:Hsb; simpl;
      [| rewrite drop_length_self; intros []].
    rewrite getCurrentUser_run.
    destruct (session_user w) as [u|] eqn:Hs; simpl;
      [| rewrite after_lookup_requests, drop_length_app; unfold session_lookup;
         rewrite Hsb; intros [Hc|[]]; discriminate Hc].
    unfold request, after_lookup. rewrite Hsb. simpl.
    destruct (sb (requests w ++ [AuthGetUser]) _) as [r|e] eqn:Hr; simpl;
      [| rewrite <- app_assoc, drop_length_app; intros [Hc|[Hc|[]]]; discriminate Hc].
    destruct (error r) eqn:He; simpl;
      [rewrite <- app_assoc, drop_length_app; intros [Hc|[Hc|[]]]; discriminate Hc|].
    intros Hin.
    assert (Hin' : In (AuthUpdateUser password)
                      [AuthGetUser; AuthSignInWithPassword (user_email u) currentPassword;
                       AuthUpdateUser newPassword]).
    { destruct (sb _ (AuthUpdateUser newPassword)) as [r2|e2]; simpl in Hin;
        [destruct (error r2); simpl in Hin|];
        by rewrite <- !app_assoc, drop_length_app in Hin. }
    destruct Hin' as [Hc|[Hc|[Hc|[]]]]; try discriminate Hc.
    injection Hc as <-. split; [done|]. by exists sb, u, r.
Qed.

Lemma update_only_after_verification_witness :
  In (AuthUpdateUser "n3w-secret")
     (issued (@AuthManager.changePassword ascii_case "pw" "n3w-secret")
             (browser (Some bob_collaborator) ∅)) /\
  session_user (browser (Some bob_collaborator) ∅) = Some bob.
Proof.
  assert (Hin : In (AuthUpdateUser "n3w-secret")
                   (issued (@AuthManager.changePassword ascii_case "pw" "n3w-secret")
                           (browser (Some bob_collaborator) ∅)))
    by (simpl; auto).
  destruct (@update_only_after_verification ascii_case "pw" "n3w-secret" "n3w-secret"
              (browser (Some bob_collaborator) ∅) (or_introl Hin))
    as (_ & sb & u & r & _ & Hs & _).
  split; [exact Hin | reflexivity].
Defined.

(** X16.  Once the current password is verified, [changePassword] of
    frontend/utils/auth.js sends the new password and reports the outcome of
    that update: 'Password updated successfully' when the response has no
    error, otherwise a failure whose message is derived from the error and
    is never empty. *)
Theorem changePassword_after_verification `{CaseMapping}
    (currentPassword newPassword : string) (w : World) (u : User)
    (sb : Collaborator) (r ru : Response) :
  window_supabase w = Some sb ->
  session_user w = Some u ->
  answers sb (requests w ++ [AuthGetUser])
    [(AuthSignInWithPassword (user_email u) currentPassword, Resolves r);
     (AuthUpdateUser newPassword, Resolves ru)] ->
  error r = None ->
  fst (AuthManager.changePassword currentPassword newPassword w)
    = Return (match error ru with
              | Some updateError =>
                  failure (Some (AuthManager.update_error_message (err_message updateError)))
              | None => succeeded (Some "Password updated successfully") NoPayload
              end) /\
  issued (AuthManager.changePassword currentPassword newPassword) w
    = [AuthGetUser; AuthSignInWithPassword (user_email u) currentPassword;
       AuthUpdateUser newPassword] /\
  forall updateError, AuthManager.update_error_message updateError <> "".
Proof.
  intros Hsb Hs (Hr & Hu & _) He.
  destruct (session_user_answers w u Hs) as (sb' & r0 & Hsb' & Hr0 & He0 & Hu0).
  assert (sb' = sb) as -> by congruence.
  unfold issued.
  unfold AuthManager.changePassword, try_catch, bind, AuthManager.getSupabase.
  rewrite Hsb, (request_resolves _ _ _ _ Hr0), He0, Hu0.
  unfold request. simpl. rewrite Hr, He. simpl. rewrite Hu.
  split; [|split].
  - by destruct (error ru).
  - destruct (error ru); simpl; by rewrite <- !app_assoc, drop_length_app.
  - apply update_error_message_nonempty.
Qed.

(** The collaborator verifies Bob's password but refuses the new one. *)
Lemma changePassword_after_verification_witness :
  fst (@AuthManager.changePassword ascii_case "pw" "pw"
         (browser (Some picky_collaborator) ∅))
    = Return (failure (Some
        "Password update failed. Please ensure your password meets all requirements.")).
Proof.
  apply (@changePassword_after_verification ascii_case "pw" "pw"
           (browser (Some picky_collaborator) ∅) bob picky_collaborator
           (response_user bob)
           (response_error (err_code same_password) (err_message same_password)));
    try reflexivity.
  repeat split.
Defined.

(** ** Registration: refusal, success, and when the rollback is sent *)

(** X17.  When the collaborator refuses the sign-up, [register] returns its
    message and stops there: no session check, no profile insert, no
    deletion -- in both copies of the manager. *)
Theorem register_sign_up_refused
    (email password username firstName lastName : string) (w : World)
    (sb : Collaborator) (r : Response) (signUpError : ApiError) :
  window_supabase w = Some sb ->
  sb (requests w) (AuthSignUp email password) = Resolves r ->
  error r = Some signUpError ->
  AuthManager.register email password username firstName lastName w
    = (Return (failure (Some (err_message signUpError))),
       with_requests (requests w ++ [AuthSignUp email password]) w) /\
  AuthManagerLegacy.register email password username firstName lastName w
    = (Return (failure (Some (err_message signUpError))),
       with_requests (requests w ++ [AuthSignUp email password]) w).
Proof.
  intros Hsb Hr He.
  unfold AuthManager.register, AuthManagerLegacy.register, try_catch, bind,
    AuthManager.getSupabase.
  by rewrite Hsb, (request_resolves _ _ _ _ Hr), He.
Qed.

Lemma register_sign_up_refused_witness :
  fst (AuthManager.register "a@x.com" "pw" "alice" "" ""
         (browser (Some unreachable_collaborator) ∅))
    = Return (failure (Some "Failed to fetch")) /\
  issued (AuthManager.register "a@x.com" "pw" "alice" "" "")
         (browser (Some unreachable_collaborator) ∅)
    = [AuthSignUp "a@x.com" "pw"].
Proof.
  destruct (register_sign_up_refused "a@x.com" "pw" "alice" "" ""
              (browser (Some unreachable_collaborator) ∅) unreachable_collaborator
              (response_error "network" "Failed to fetch")
              {| err_code := "network"; err_message := "Failed to fetch" |}
              eq_refl eq_refl eq_refl) as [H _].
  unfold issued. rewrite H. split; reflexivity.
Defined.

(** X18.  When sign-up and profile insert both succeed, [register] returns
    [{success: true, user}] with the user the sign-up created; the profile
    row it inserted has that user's id and the caller's email, username and
    names; nothing is deleted and nothing is cached. *)
Theorem register_creates_identity_and_profile
    (email password username firstName lastName : string) (w : World)
    (sb : Collaborator) (u : User) (r1 r2 r3 : Response) :
  window_supabase w = Some sb ->
  answers sb (requests w)
    [(AuthSignUp email password, Resolves r1);
     (AuthGetSession, Resolves r2);
     (TableInsert "profiles" (AuthManager.profile_row u email username firstName lastName) false,
      Resolves r3)] ->
  error r1 = None -> data_user r1 = Some u ->
  error r3 = None ->
  let run := AuthManager.register email password username firstName lastName in
  fst (run w) = Return (succeeded None (PayloadUser u)) /\
  issued run w =
    [AuthSignUp email password; AuthGetSession;
     TableInsert "profiles"
       [("id", VStr (user_id u)); ("email", VStr email); ("username", VStr username);
        ("first_name", VStr firstName); ("last_name", VStr lastName)] false] /\
  localStorage (snd (run w)) = localStorage w /\
  broadcast run w = [].
Proof.
  intros Hsb (H1 & H2 & H3 & _) He1 Hu1 He3 run.
  assert (Hwait : forall w0,
            match error r2, data_session r2 with
            | None, Some _ => ret tt
            | _, _ => AuthManager.wait 1500
            end w0 = (Return tt, w0)).
  { intros w0. destruct (error r2), (data_session r2); reflexivity. }
  assert (Hrun : run w =
            (Return (succeeded None (PayloadUser u)),
             with_requests
               (requests w ++
                  [AuthSignUp email password; AuthGetSession;
                   TableInsert "profiles"
                     (AuthManager.profile_row u email username firstName lastName) false]) w)).
  { unfold run, AuthManager.register, try_catch, bind, AuthManager.getSupabase.
    rewrite Hsb, (request_resolves _ _ _ _ H1), He1, Hu1. simpl.
    unfold request at 1. simpl. rewrite H2, Hwait.
    unfold request. simpl. rewrite H3, He3. simpl.
    by rewrite <- !app_assoc. }
  unfold issued, broadcast. rewrite Hrun. simpl.
  repeat split; [apply drop_length_app | apply drop_length_self].
Qed.

Lemma register_creates_identity_and_profile_witness :
  fst (AuthManager.register "a@x.com" "pw" "alice" "Alice" "Liddell"
         (browser (Some alice_login_collaborator) ∅))
    = Return (succeeded None (PayloadUser alice)) /\
  broadcast (AuthManager.register "a@x.com" "pw" "alice" "Alice" "Liddell")
            (browser (Some alice_login_collaborator) ∅) = [].
Proof.
  destruct (register_creates_identity_and_profile "a@x.com" "pw" "alice" "Alice" "Liddell"
              (browser (Some alice_login_collaborator) ∅) alice_login_collaborator alice
              (response_user alice) (response_user alice) response_ok
              eq_refl (conj eq_refl (conj eq_refl (conj eq_refl I)))
              eq_refl eq_refl eq_refl) as (Hret & _ & _ & Hb).
  split; [exact Hret | exact Hb].
Defined.

(** X19.  [register] asks the collaborator to delete a user only after the
    sign-up returned that very user without an error and the profile insert
    for that user was answered with an error. *)
Theorem rollback_only_after_profile_error
    (email password username firstName lastName id : string) (w : World) :
  In (AuthAdminDeleteUser id)
     (issued (AuthManager.register email password username firstName lastName) w) ->
  exists sb r1 u r3,
    window_supabase w = Some sb /\
    sb (requests w) (AuthSignUp email password) = Resolves r1 /\
    error r1 = None /\ data_user r1 = Some u /\ id = user_id u /\
    sb (requests w ++ [AuthSignUp email password; AuthGetSession])
       (TableInsert "profiles"
          (AuthManager.profile_row u email username firstName lastName) false)
      = Resolves r3 /\
    error r3 <> None.
Proof.
  unfold issued, AuthManager.register, try_catch, bind, AuthManager.getSupabase, request.
  destruct (window_supabase w) as [sb|]; simpl;
    [| rewrite drop_length_self; intros []].
  destruct (sb (requests w) _) as [r1|e1] eqn:H1; simpl;
    [| rewrite drop_length_app; intros [H|[]]; discriminate H].
  destruct (error r1) eqn:He1; simpl;
    [rewrite drop_length_app; intros [H|[]]; discriminate H|].
  destruct (data_user r1) as [u|] eqn:Hu1; simpl;
    [| rewrite drop_length_app; intros [H|[]]; discriminate H].
  destruct (sb (requests w ++ [AuthSignUp email password]) AuthGetSession) as [r2|e2]; simpl;
    [| rewrite <- app_assoc, drop_length_app; intros [H|[H|[]]]; discriminate H].
  assert (Hwait : forall w0,
            match error r2, data_session r2 with
            | None, Some _ => ret tt
            | _, _ => AuthManager.wait 1500
            end w0 = (Return tt, w0)).
  { intros w0. destruct (error r2), (data_session r2); reflexivity. }
  rewrite Hwait. simpl.
  rewrite <- (app_assoc (requests w) [AuthSignUp email password] [AuthGetSession]). simpl.
  destruct (sb (requests w ++ [AuthSignUp email password; AuthGetSession]) _)
    as [r3|e3] eqn:H3; simpl;
    [| rewrite <- app_assoc, drop_length_app; intros [H|[H|[H|[]]]]; discriminate H].
  destruct (error r3) eqn:He3; simpl;
    [| rewrite <- app_assoc, drop_length_app; intros [H|[H|[H|[]]]]; discriminate H].
  intros Hin.
  assert (Hin' : In (AuthAdminDeleteUser id)
                    (rollback_requests u email password username firstName lastName)).
  { destruct (sb _ (AuthAdminDeleteUser (user_id u))); simpl in Hin;
      by rewrite <- !app_assoc, drop_length_app in Hin. }
  destruct Hin' as [H|[H|[H|[H|[]]]]]; try discriminate H.
  injection H as <-.
  exists sb, r1, u, r3. rewrite H3, He3. by repeat split.
Qed.

Lemma rollback_only_after_profile_error_witness :
  In (AuthAdminDeleteUser "u1")
     (issued (AuthManager.register "a@x.com" "pw" "alice" "" "")
             (browser (Some refusing_collaborator) ∅)) /\
  refusing_collaborator
    [AuthSignUp "a@x.com" "pw"; AuthGetSession]
    (TableInsert "profiles" (AuthManager.profile_row alice "a@x.com" "alice" "" "") false)
    = Resolves (response_error (err_code rls_refusal) (err_message rls_refusal)).
Proof.
  assert (Hin : In (AuthAdminDeleteUser "u1")
                   (issued (AuthManager.register "a@x.com" "pw" "alice" "" "")
                           (browser (Some refusing_collaborator) ∅)))
    by (simpl; auto 6).
  destruct (rollback_only_after_profile_error "a@x.com" "pw" "alice" "" "" "u1"
              (browser (Some refusing_collaborator) ∅) Hin)
    as (sb & r1 & u & r3 & _).
  split; [exact Hin | reflexivity].
Defined.

(** ** Profile requests are tied to the session *)

(** X20.  Every request that [getCurrentProfile] and [updateProfile] send to
    the [profiles] table is filtered by the [id] of the user the session
    lookup returned in that run, whatever profile data the caller passes;
    without a session neither sends a table request. *)
Theorem profile_requests_keyed_by_session
    (profileData : Value) (w : World) (c : Call) (key : Value) :
  In c (issued AuthManager.getCurrentProfile w) \/
  In c (issued (AuthManager.updateProfile profileData) w) ->
  profile_key c = Some key ->
  exists u, session_user w = Some u /\ key = VStr (user_id u).
Proof.
  unfold issued.
  intros [Hin | Hin] Hkey; revert Hin.
  - unfold AuthManager.getCurrentProfile, try_catch, bind, AuthManager.getSupabase.
    rewrite getCurrentUser_run.
    destruct (session_user w) as [u|] eqn:Hs; simpl.
    + destruct (session_user_client w u Hs) as [sb Hsb].
      rewrite after_lookup_supabase, Hsb. unfold request, after_lookup. rewrite Hsb. simpl.
      intros Hin.
      assert (Hin' : In c [AuthGetUser;
                           TableSelect "profiles" [("id", VStr (user_id u))] Single]).
      { destruct (sb _ _) as [r|e]; simpl in Hin;
          [destruct (error r) as [err|]; [destruct (String.eqb _ _)|]; simpl in Hin|];
          by rewrite <- !app_assoc, drop_length_app in Hin. }
      destruct Hin' as [<-|[<-|[]]]; simpl in Hkey; [discriminate Hkey|].
      injection Hkey as <-. by exists u.
    + rewrite after_lookup_requests, drop_length_app. unfold session_lookup.
      destruct (window_supabase w); [intros [<-|[]]; simpl in Hkey; discriminate Hkey | intros []].
  - unfold AuthManager.updateProfile, try_catch, bind, AuthManager.getSupabase.
    destruct (window_supabase w) as [sb|] eqn:Hsb; simpl;
      [| rewrite drop_length_self; intros []].
    rewrite getCurrentUser_run.
    destruct (session_user w) as [u|] eqn:Hs; simpl.
    + unfold request, after_lookup. rewrite Hsb. simpl.
      intros Hin.
      assert (Hin' : In c [AuthGetUser;
                           TableUpdate "profiles" profileData [("id", VStr (user_id u))]]).
      { destruct (sb _ _) as [r|e]; simpl in Hin;
          [destruct (error r); simpl in Hin|];
          by rewrite <- !app_assoc, drop_length_app in Hin. }
      destruct Hin' as [<-|[<-|[]]]; simpl in Hkey; [discriminate Hkey|].
      injection Hkey as <-. by exists u.
    + rewrite after_lookup_requests, drop_length_app. unfold session_lookup.
      rewrite Hsb. intros [<-|[]]. simpl in Hkey. discriminate Hkey.
Qed.

(** Bob passes a patch that names Alice's id: the update is still filtered
    by Bob's. *)
Lemma profile_requests_keyed_by_session_witness :
  exists u, session_user (browser (Some bob_collaborator) ∅) = Some u /\
            VStr "u2" = VStr (user_id u).
Proof.
  apply (profile_requests_keyed_by_session
           (VObj [("id", VStr "u1"); ("username", VStr "mallory")])
           (browser (Some bob_collaborator) ∅)
           (TableUpdate "profiles" (VObj [("id", VStr "u1"); ("username", VStr "mallory")])
              [("id", VStr "u2")])
           (VStr "u2")).
  - right. simpl. auto.
  - reflexivity.
Defined.

(** ** The access token *)

(** X21.  [getAccessToken] never throws and sends one [getSession] request
    at most; it returns a token exactly when the collaborator answered that
    request with a session and no error, and the token it returns is that
    session's and is not empty. *)
Theorem getAccessToken_returns_session_token (w : World) :
  exists token,
    fst (AuthManagerSession.getAccessToken w) = Return token /\
    forall t, token = Some t <->
      t <> "" /\
      exists sb r,
        window_supabase w = Some sb /\
        sb (requests w) AuthGetSession = Resolves r /\
        error r = None /\
        data_session r = Some {| access_token := t |}.
Proof.
  unfold AuthManagerSession.getAccessToken, try_catch, bind, AuthManager.getSupabase, request.
  destruct (window_supabase w) as [sb|]; simpl.
  2:{ exists None. split; [done|]. intros t. split; [done|].
      intros (_ & sb & r & H & _). discriminate H. }
  assert (Hsame : forall (P : Response -> Prop) r,
            sb (requests w) AuthGetSession = Resolves r ->
            (exists sb' r', Some sb = Some sb' /\
               sb' (requests w) AuthGetSession = Resolves r' /\ P r') -> P r).
  { intros P r Hr (sb' & r' & Hsb & Hr' & HP). injection Hsb as <-.
    rewrite Hr in Hr'. by injection Hr' as <-. }
  destruct (sb (requests w) AuthGetSession) as [r|e] eqn:Hr; simpl.
  2:{ exists None. split; [done|]. intros t. split; [done|].
      intros (_ & sb' & r & H & Hr' & _). injection H as <-. congruence. }
  destruct (error r) as [err|] eqn:He; simpl.
  { exists None. split; [done|]. intros t. split; [done|].
    intros (_ & Hex).
    pose proof (Hsame (fun r' => error r' = None /\ data_session r' = Some {| access_token := t |})
                  r eq_refl Hex) as [He' _].
    congruence. }
  eexists. split; [reflexivity|]. intros t.
  destruct (data_session r) as [[tok]|] eqn:Hd; simpl.
  - destruct tok as [|c tok]; simpl.
    + split; [done|]. intros (Hne & Hex).
      pose proof (Hsame (fun r' => error r' = None /\
                                   data_session r' = Some {| access_token := t |})
                    r eq_refl Hex) as [_ Hd'].
      rewrite Hd in Hd'. by injection Hd' as <-.
    + split.
      * intros [= <-]. split; [done|]. by exists sb, r.
      * intros (_ & Hex).
        pose proof (Hsame (fun r' => error r' = None /\
                                     data_session r' = Some {| access_token := t |})
                      r eq_refl Hex) as [_ Hd'].
        rewrite Hd in Hd'. by injection Hd' as <-.
  - split; [done|]. intros (_ & Hex).
    pose proof (Hsame (fun r' => error r' = None /\
                                 data_session r' = Some {| access_token := t |})
                  r eq_refl Hex) as [_ Hd'].
    congruence.
Qed.

(** ** The console debug helper *)

(** X22.  [RLSDebug.testOwnProfile] answers true only when the production
    path would read the profile: it then has sent the same two requests as
    [AuthManager.getCurrentProfile], and [getCurrentProfile] returns the row
    of that response. *)
Theorem testOwnProfile_agrees_with_getCurrentProfile (w : World) :
  fst (RLSDebug.testOwnProfile w) = Return true ->
  exists u sb r,
    session_user w = Some u /\
    window_supabase w = Some sb /\
    sb (requests w ++ [AuthGetUser])
       (TableSelect "profiles" [("id", VStr (user_id u))] Single) = Resolves r /\
    error r = None /\
    fst (AuthManager.getCurrentProfile w) = Return (data_profile r) /\
    snd (RLSDebug.testOwnProfile w) = snd (AuthManager.getCurrentProfile w).
Proof.
  unfold RLSDebug.testOwnProfile, RLSDebug.testCurrentUser, RLSDebug.window_supabase_member,
    AuthManager.getCurrentProfile, try_catch, bind, AuthManager.getSupabase.
  rewrite getCurrentUser_run. unfold session_user, after_lookup, request.
  destruct (window_supabase w) as [sb|] eqn:Hsb; simpl; [|discriminate].
  destruct (sb (requests w) AuthGetUser) as [r0|e0]; simpl; [|discriminate].
  destruct (error r0); simpl; [discriminate|].
  destruct (data_user r0) as [u|]; simpl; [|discriminate].
  rewrite Hsb. simpl.
  destruct (sb (requests w ++ [AuthGetUser]) _) as [r|e] eqn:Hr; simpl; [|discriminate].
  destruct (error r) eqn:He; simpl; [discriminate|].
  intros _. exists u, sb, r. by rewrite He.
Qed.

Lemma testOwnProfile_agrees_with_getCurrentProfile_witness :
  fst (RLSDebug.testOwnProfile (browser (Some alice_login_collaborator) ∅)) = Return true /\
  fst (AuthManager.getCurrentProfile (browser (Some alice_login_collaborator) ∅))
    = Return (Some alice_profile).
Proof.
  destruct (testOwnProfile_agrees_with_getCurrentProfile
              (browser (Some alice_login_collaborator) ∅) eq_refl)
    as (u & sb & r & _).
  split; reflexivity.
Defined.

(** X23.  Unlike the manager, the debug helper does not guard against a
    missing client: with [window.supabase] null, [testSupabaseInit] answers
    false, and [testCurrentUser] and [testOwnProfile] throw a TypeError
    instead of returning. *)
Theorem debug_helper_throws_without_client (w : World) :
  window_supabase w = None ->
  fst (RLSDebug.testSupabaseInit w) = Return false /\
  (exists what, RLSDebug.testCurrentUser w = (Throw (TypeError what), w)) /\
  (exists what, RLSDebug.testOwnProfile w = (Throw (TypeError what), w)).
Proof.
  intros Hsb.
  unfold RLSDebug.testSupabaseInit, RLSDebug.testOwnProfile, RLSDebug.testCurrentUser,
    RLSDebug.window_supabase_member, bind.
  rewrite Hsb. simpl. repeat split; by eexists.
Qed.

Lemma debug_helper_throws_without_client_witness :
  fst (RLSDebug.testSupabaseInit (browser None ∅)) = Return false /\
  fst (AuthManager.getCurrentProfile (browser None ∅)) = Return None.
Proof.
  destruct (debug_helper_throws_without_client (browser None ∅) eq_refl) as (H & _).
  split; [exact H | reflexivity].
Defined.

(** ** Leaving the page: logout confirmation and redirects *)

Lemma logout_returns (w : World) : exists env, fst (AuthManager.logout w) = Return env.
Proof. apply try_catch_returns. intros e w'. by eexists. Qed.

(** X24.  [confirmLogout] always wipes local storage completely and sends
    the page to the login page of the current theme -- also when the manager
    is missing, the client is not initialised, or the sign-out fails or
    rejects; session storage is not touched. *)
Theorem confirmLogout_wipes_and_redirects (isDarkMode : bool) (p : Page) :
  let p' := snd (NavigationPage.confirmLogout isDarkMode p) in
  fst (NavigationPage.confirmLogout isDarkMode p) = Return tt /\
  localStorage (page_world p') = ∅ /\
  navigations p' = navigations p ++ [if isDarkMode then "login-dark.html" else "login.html"] /\
  sessionStorage p' = sessionStorage p.
Proof.
  unfold NavigationPage.confirmLogout, NavigationPage.goToLogin, page_try_catch, page_bind,
    in_world, Navigation.AuthManager_is_defined, clearStorage, assign_href, page_ret.
  simpl.
  destruct (AuthManager_defined (page_world p)); simpl.
  - destruct (logout_returns (page_world p)) as [env Henv].
    destruct (AuthManager.logout (page_world p)) as [[env'|e] w']; [|discriminate Henv].
    simpl. by destruct isDarkMode.
  - by destruct isDarkMode.
Qed.

Section Redirects.

Context `{JSON}.

Lemma checkAuth_read_only (w : World) :
  exists b, AuthManagerSession.checkAuth w = (Return b, w).
Proof.
  unfold AuthManagerSession.checkAuth, AuthManagerSession.getCurrentUserLocal,
    try_catch, bind, getItem, lift, ret.
  destruct (truthy_opt _); [|by eexists].
  destruct (JSON_parse _); by eexists.
Qed.

(** X25.  [requireAuth] returns what [checkAuth] says.  When that is true
    the page is left alone; when it is false the current URL is stored under
    [auth_return_url] and the page is sent to 'login.html' -- unless the
    store refuses the write, in which case [requireAuth] still returns
    false but no redirect happens. *)
Theorem requireAuth_redirects_unless_authenticated (p : Page) (isAuth : bool) :
  fst (AuthManagerSession.checkAuth (page_world p)) = Return isAuth ->
  let p' := snd (AuthManagerPage.requireAuth p) in
  fst (AuthManagerPage.requireAuth p) = Return isAuth /\
  navigations p' =
    navigations p ++
      (if isAuth then []
       else if storage_accepts (page_world p) "auth_return_url" (location_href p)
            then ["login.html"] else []) /\
  (isAuth = false ->
   storage_accepts (page_world p) "auth_return_url" (location_href p) = true ->
   localStorage (page_world p') !! "auth_return_url" = Some (location_href p)).
Proof.
  intros Hcheck.
  destruct (checkAuth_read_only (page_world p)) as [b Hb].
  rewrite Hb in Hcheck. injection Hcheck as ->.
  unfold AuthManagerPage.requireAuth, AuthManagerPage.redirectToLogin, page_bind,
    page_try_catch, in_world, read_href, assign_href, page_ret, setItem.
  rewrite Hb. simpl.
  assert (Heta : with_world (page_world p) p = p) by (by destruct p).
  rewrite Heta.
  destruct isAuth; simpl.
  - by rewrite app_nil_r.
  - destruct (storage_accepts _ _ _); simpl.
    + repeat split. intros _ _. apply lookup_insert_eq.
    + rewrite app_nil_r. repeat split. intros _ Hf. discriminate Hf.
Qed.

End Redirects.

(** X26.  The return URL survives the trip through the login page:
    [redirectToLogin] stores it (the given URL, or the current one) and goes
    to 'login.html'; on a page that sees that store, [redirectAfterLogin]
    goes back to it -- or to 'index.html' when it is empty or is the page
    it is already on -- and removes the key. *)
Theorem redirect_round_trip (returnUrl : option string) (p q : Page) :
  let target := if truthy_opt returnUrl then to_text returnUrl else location_href p in
  storage_accepts (page_world p) "auth_return_url" target = true ->
  localStorage (page_world q)
    = localStorage (page_world (snd (AuthManagerPage.redirectToLogin returnUrl p))) ->
  navigations (snd (AuthManagerPage.redirectToLogin returnUrl p))
    = navigations p ++ ["login.html"] /\
  navigations (snd (AuthManagerPage.redirectAfterLogin q))
    = navigations q ++
        [if truthy target && negb (String.eqb target (location_href q))
         then target else "index.html"] /\
  localStorage (page_world (snd (AuthManagerPage.redirectAfterLogin q))) !! "auth_return_url"
    = None.
Proof.
  intros target Hacc.
  unfold AuthManagerPage.redirectToLogin, AuthManagerPage.redirectAfterLogin,
    page_try_catch, page_bind, in_world, read_href, assign_href, page_ret,
    setItem, getItem, removeItem.
  simpl. fold target. rewrite Hacc. simpl.
  intros Hq. rewrite Hq, lookup_insert_eq. simpl.
  split; [done|].
  destruct (truthy target && negb (target =? location_href q))%string; simpl;
    (split; [done | apply lookup_delete_eq]).
Qed.

Lemma requireAuth_redirects_unless_authenticated_witness :
  let p := page_on "https://mindspend.example/analytics.html"
             (browser None ∅) deleting_backend in
  fst (@AuthManagerPage.requireAuth alice_JSON p) = Return false /\
  navigations (snd (@AuthManagerPage.requireAuth alice_JSON p)) = ["login.html"].
Proof.
  intros p.
  destruct (@requireAuth_redirects_unless_authenticated alice_JSON p false eq_refl)
    as (Hret & Hnav & _).
  split; [exact Hret | exact Hnav].
Defined.

Lemma redirect_round_trip_witness :
  let p := page_on "https://mindspend.example/analytics.html"
             (browser None ∅) deleting_backend in
  let q := page_on "https://mindspend.example/login.html"
             (page_world (snd (AuthManagerPage.redirectToLogin None p))) deleting_backend in
  navigations (snd (AuthManagerPage.redirectAfterLogin q))
    = ["https://mindspend.example/analytics.html"].
Proof.
  intros p q.
  destruct (redirect_round_trip None p q eq_refl eq_refl) as (_ & Hback & _).
  exact Hback.
Defined.

(** ** Deleting the account *)

Lemma lookup_removed_keys (keys : list string) (m : gmap string string) (k : string) :
  foldl (fun m key => delete key m) m keys !! k
    = if decide (k ∈ keys) then None else m !! k.
Proof.
  revert m. induction keys as [|key keys IH]; intros m; cbn [foldl].
  - destruct (decide (k ∈ [])) as [Hin|_]; [by apply not_elem_of_nil in Hin | done].
  - rewrite IH.
    destruct (decide (k ∈ keys)) as [Hin|Hout].
    + destruct (decide (k ∈ key :: keys)) as [_|Hno]; [done|].
      destruct Hno. by apply list_elem_of_further.
    + destruct (decide (k ∈ key :: keys)) as [Hin|Hno].
      * apply elem_of_cons in Hin as [->|Hin]; [apply lookup_delete_eq | done].
      * apply lookup_delete_ne. intros ->. apply Hno, list_elem_of_here.
Qed.

Lemma removeItems_run (keys : list string) (w : World) :
  AuthManagerPage.removeItems keys w =
    (Return tt, with_localStorage (foldl (fun m key => delete key m) (localStorage w) keys) w).
Proof.
  revert w. induction keys as [|key keys IH]; intros w; simpl.
  - by destruct w.
  - unfold bind, removeItem. by rewrite IH.
Qed.

Lemma getAccessToken_frame (w : World) :
  exists token w',
    AuthManagerSession.getAccessToken w = (Return token, w') /\
    localStorage w' = localStorage w /\
    dispatched w' = dispatched w /\
    (requests w' = requests w \/ requests w' = requests w ++ [AuthGetSession]).
Proof.
  unfold AuthManagerSession.getAccessToken, try_catch, bind, AuthManager.getSupabase, request.
  destruct (window_supabase w) as [sb|]; [|by eexists _, _; auto].
  destruct (sb (requests w) AuthGetSession) as [r|e]; simpl; [|by eexists _, _; auto].
  destruct (error r); simpl; eexists _, _; auto.
Qed.

(** X27.  When the backend confirms the deletion, [deleteAccount] finishes
    the job locally whatever happens to the sign-out: it returns
    [{success: true, message: 'Account deleted successfully'}], the keys
    [auth_user], [userProfile] and the ten [mindspend_*] keys of its list are
    gone from local storage, every other key is kept, and session storage is
    empty.  The backend was asked once, with the session's bearer token. *)
Theorem deleteAccount_wipes_local_data (password : string) (p : Page) (u : User) :
  session_user (page_world p) = Some u ->
  backend_deleted (backend p (AuthManagerPage.deletion_request
                                (token_after_lookup (page_world p)))) = true ->
  let p' := snd (AuthManagerPage.deleteAccount password p) in
  fst (AuthManagerPage.deleteAccount password p)
    = Return (succeeded (Some "Account deleted successfully") NoPayload) /\
  (forall k, localStorage (page_world p') !! k
             = if decide (k ∈ wiped_keys) then None else localStorage (page_world p) !! k) /\
  sessionStorage p' = ∅ /\
  fetched p' = fetched p ++ [AuthManagerPage.deletion_request
                               (token_after_lookup (page_world p))].
Proof.
  intros Hs Hdel.
  destruct (session_user_answers _ u Hs) as (sb & r0 & Hsb & Hr0 & He0 & Hu0).
  unfold token_after_lookup in *.
  destruct (getAccessToken_frame
              (with_requests (requests (page_world p) ++ [AuthGetUser]) (page_world p)))
    as (token & w2 & Htok & Hl2 & _ & _).
  rewrite Htok in *. simpl in Hdel, Hl2.
  unfold AuthManagerPage.deleteAccount, page_try_catch, page_bind, in_world,
    AuthManager.getSupabase.
  rewrite Hsb. simpl.
  rewrite (request_resolves _ _ _ _ Hr0), He0, Hu0. simpl. rewrite Htok. simpl.
  unfold AuthManagerPage.backend_deletion, page_try_catch, page_bind, fetch, json, page_ret.
  simpl.
  destruct (backend p _) as [resp|e]; [|discriminate Hdel]. simpl in *.
  destruct (backend_ok resp); [|discriminate Hdel]. simpl in *.
  destruct (backend_json resp); [|discriminate Hdel]. simpl.
  unfold AuthManagerPage.best_effort_signOut, page_try_catch, page_bind, in_world,
    page_ret, request. simpl.
  assert (Hlookup : forall (m : gmap string string) k,
            m = localStorage (page_world p) ->
            foldl (fun m key => delete key m) (delete "userProfile" (delete "auth_user" m))
              AuthManagerPage.keysToDelete !! k
            = if decide (k ∈ wiped_keys) then None else localStorage (page_world p) !! k).
  { intros m k ->.
    change (delete "userProfile" (delete "auth_user" (localStorage (page_world p))))
      with (foldl (fun m key => delete key m) (localStorage (page_world p))
              ["auth_user"; "userProfile"]).
    rewrite <- foldl_app. apply lookup_removed_keys. }
  destruct (sb _ AuthSignOut); simpl;
    (repeat split; intros k; rewrite Hl2; exact (Hlookup _ k eq_refl)).
Qed.

(** Alice deletes her account while the sign-out cannot even be sent. *)
Lemma deleteAccount_wipes_local_data_witness :
  fst (AuthManagerPage.deleteAccount "pw" alice_page)
    = Return (succeeded (Some "Account deleted successfully") NoPayload) /\
  localStorage (page_world (snd (AuthManagerPage.deleteAccount "pw" alice_page)))
    !! "mindspend_username" = None /\
  localStorage (page_world (snd (AuthManagerPage.deleteAccount "pw" alice_page)))
    !! "currentUser" = Some "alice-session" /\
  fetch_authorization
    <$> fetched (snd (AuthManagerPage.deleteAccount "pw" alice_page)) = ["Bearer token"].
Proof.
  destruct (deleteAccount_wipes_local_data "pw" alice_page alice eq_refl eq_refl)
    as (Hret & Hkeys & _ & Hfetch).
  split; [exact Hret|].
  split; [by rewrite Hkeys|]. split; [by rewrite Hkeys|].
  rewrite Hfetch. reflexivity.
Defined.

(** X28.  When the backend does not confirm the deletion -- a non-2xx
    response, a body that is not JSON, or a failed request -- [deleteAccount]
    reports a failure and stops: it does not sign out and leaves local
    storage and session storage exactly as they were. *)
Theorem deleteAccount_backend_failure_keeps_local_data
    (password : string) (p : Page) (u : User) :
  session_user (page_world p) = Some u ->
  backend_deleted (backend p (AuthManagerPage.deletion_request
                                (token_after_lookup (page_world p)))) = false ->
  let p' := snd (AuthManagerPage.deleteAccount password p) in
  (fst (AuthManagerPage.deleteAccount password p)
     = Return (failure (Some "Failed to delete account from backend")) \/
   fst (AuthManagerPage.deleteAccount password p)
     = Return (failure (Some "Failed to connect to deletion service"))) /\
  ~ In AuthSignOut (drop (length (requests (page_world p))) (requests (page_world p'))) /\
  localStorage (page_world p') = localStorage (page_world p) /\
  dispatched (page_world p') = dispatched (page_world p) /\
  sessionStorage p' = sessionStorage p.
Proof.
  intros Hs Hdel.
  destruct (session_user_answers _ u Hs) as (sb & r0 & Hsb & Hr0 & He0 & Hu0).
  unfold token_after_lookup in *.
  destruct (getAccessToken_frame
              (with_requests (requests (page_world p) ++ [AuthGetUser]) (page_world p)))
    as (token & w2 & Htok & Hl2 & Hd2 & Hreq2).
  rewrite Htok in *. simpl in Hdel, Hl2, Hd2, Hreq2.
  assert (Hnew : ~ In AuthSignOut (drop (length (requests (page_world p))) (requests w2))).
  { destruct Hreq2 as [-> | ->].
    - rewrite drop_length_app. intros [H|[]]. discriminate H.
    - rewrite <- app_assoc, drop_length_app. intros [H|[H|[]]]; discriminate H. }
  unfold AuthManagerPage.deleteAccount, page_try_catch, page_bind, in_world,
    AuthManager.getSupabase.
  rewrite Hsb. simpl.
  rewrite (request_resolves _ _ _ _ Hr0), He0, Hu0. simpl. rewrite Htok. simpl.
  unfold AuthManagerPage.backend_deletion, page_try_catch, page_bind, fetch, json, page_ret.
  simpl.
  destruct (backend p _) as [resp|e]; simpl in *; [|by auto 10].
  destruct (backend_ok resp); simpl in *.
  - destruct (backend_json resp); [discriminate Hdel|]. simpl. by auto 10.
  - destruct (backend_json resp); simpl; by auto 10.
Qed.

Lemma deleteAccount_backend_failure_keeps_local_data_witness :
  let p := page_on "https://mindspend.example/settings.html"
             (browser (Some alice_login_collaborator) alice_cache) refusing_backend in
  fst (AuthManagerPage.deleteAccount "pw" p)
    = Return (failure (Some "Failed to delete account from backend")) /\
  localStorage (page_world (snd (AuthManagerPage.deleteAccount "pw" p))) = alice_cache.
Proof.
  intros p.
  destruct (deleteAccount_backend_failure_keeps_local_data "pw" p alice eq_refl eq_refl)
    as (_ & _ & Hstore & _).
  split; [reflexivity | exact Hstore].
Defined.

(** X29.  Without a signed-in user [deleteAccount] fails and does nothing:
    the backend is not contacted, nothing is removed from local or session
    storage and nothing is dispatched; when the user lookup answers (rather
    than rejects) the envelope asks for a login. *)
Theorem deleteAccount_requires_session (password : string) (p : Page) :
  session_user (page_world p) = None ->
  let p' := snd (AuthManagerPage.deleteAccount password p) in
  (exists env, fst (AuthManagerPage.deleteAccount password p) = Return env /\
               success env = false) /\
  fetched p' = fetched p /\
  localStorage (page_world p') = localStorage (page_world p) /\
  dispatched (page_world p') = dispatched (page_world p) /\
  sessionStorage p' = sessionStorage p /\
  (forall sb r,
     window_supabase (page_world p) = Some sb ->
     sb (requests (page_world p)) AuthGetUser = Resolves r ->
     fst (AuthManagerPage.deleteAccount password p)
       = Return (failure_requiresLogin "Not authenticated. Please login again.")).
Proof.
  unfold session_user, AuthManagerPage.deleteAccount, page_try_catch, page_bind, in_world,
    AuthManager.getSupabase, request, page_ret.
  simpl.
  destruct (window_supabase (page_world p)) as [sb|]; simpl.
  2:{ intros _. repeat split; try done; try (eexists; split; reflexivity); try (intros; discriminate); try (intros; reflexivity). }
  destruct (sb (requests (page_world p)) AuthGetUser) as [r|e] eqn:Hr; simpl.
  2:{ intros _. repeat split; try done; try (eexists; split; reflexivity).
      intros sb' r' [= <-] Hr'. congruence. }
  destruct (error r); simpl.
  { intros _. repeat split; try done; try (eexists; split; reflexivity); try (intros; discriminate); try (intros; reflexivity). }
  destruct (data_user r); simpl; [discriminate|].
  intros _. repeat split; try done; try (eexists; split; reflexivity); try (intros; discriminate); try (intros; reflexivity).
Qed.

Lemma deleteAccount_requires_session_witness :
  let p := page_on "https://mindspend.example/settings.html"
             (browser (Some signed_out_collaborator) alice_cache) deleting_backend in
  fst (AuthManagerPage.deleteAccount "pw" p)
    = Return (failure_requiresLogin "Not authenticated. Please login again.") /\
  fetched (snd (AuthManagerPage.deleteAccount "pw" p)) = [].
Proof.
  intros p.
  destruct (deleteAccount_requires_session "pw" p eq_refl)
    as (_ & Hfetch & _ & _ & _ & Hlogin).
  split; [|exact Hfetch].
  exact (Hlogin signed_out_collaborator
           (response_error "session_missing" "Auth session missing!") eq_refl eq_refl).
Defined.

(** ** The cached display name *)

Lemma cached_display_name_truthy (store : gmap string string) (name : string) :
  cached_display_name store = Some name -> truthy name = true.
Proof.
  unfold cached_display_name.
  destruct (store !! "mindspend_firstName") as [[|c first]|]; simpl.
  - destruct (store !! "mindspend_username") as [[|c user]|]; simpl;
      [discriminate | by intros [= <-] | discriminate].
  - destruct (truthy_opt _); by intros [= <-].
  - destruct (store !! "mindspend_username") as [[|c user]|]; simpl;
      [discriminate | by intros [= <-] | discriminate].
Qed.

Lemma loadUserProfileNameData_cached (nav : Nav) (w : World) (name : string) :
  cached_display_name (localStorage w) = Some name ->
  Navigation.loadUserProfileNameData nav w = (Return (Navigation.set_displayName name nav), w).
Proof.
  unfold cached_display_name, Navigation.loadUserProfileNameData, try_catch, bind, getItem.
  simpl.
  destruct (truthy_opt (localStorage w !! "mindspend_firstName")
            && truthy_opt (localStorage w !! "mindspend_lastName")); [by intros [= <-]|].
  destruct (truthy_opt (localStorage w !! "mindspend_firstName")); [by intros [= <-]|].
  destruct (truthy_opt (localStorage w !! "mindspend_username")); [by intros [= <-]|].
  discriminate.
Qed.

(** X30.  When a display field is cached -- first and last name, else the
    first name, else the username -- [Navigation.init] takes the name from
    local storage: name resolution sends nothing to the collaborator (the
    only request of [init] is its session lookup).  For a signed-in user the
    markup handed to [innerHTML] is the user menu with the cached text
    interpolated as it is, nothing escaped; for an anonymous visitor it is
    the sign-in button. *)
Theorem init_interpolates_cached_name (w : World) (name : string) :
  cached_display_name (localStorage w) = Some name ->
  AuthManager_defined w = true ->
  main_nav w = None ->
  fst (Navigation.init Navigation.initial w)
    = Return {| nav_user := session_user w; nav_displayName := Some name |} /\
  main_nav (snd (Navigation.init Navigation.initial w))
    = Some (match session_user w with
            | Some _ => UserMenu name
            | None => SignInButton
            end) /\
  issued (Navigation.init Navigation.initial) w = session_lookup w.
Proof.
  intros Hname Hd Hm.
  pose proof (cached_display_name_truthy _ _ Hname) as Htruthy.
  unfold issued, Navigation.init, bind.
  rewrite (loadUserProfileNameData_cached _ w name Hname).
  unfold Navigation.AuthManager_is_defined. rewrite Hd.
  rewrite getCurrentUser_run.
  unfold ret, Navigation.injectNav.
  assert (Hnav : main_nav (after_lookup w) = None)
    by (unfold after_lookup; by destruct (window_supabase w)).
  rewrite Hnav. simpl.
  split; [done|]. split.
  - unfold Navigation.generateNavHTML, Navigation.isAuthenticated, Navigation.userName. simpl.
    rewrite Htruthy. by destruct (session_user w).
  - by rewrite after_lookup_requests, drop_length_app.
Qed.

(** Alice's username is cached; on another page the cached username holds
    markup, which goes into the template unchanged. *)
Lemma init_interpolates_cached_name_witness :
  main_nav (snd (Navigation.init Navigation.initial
                   (browser (Some alice_login_collaborator)
                      {[ "mindspend_username" := "alice" ]})))
    = Some (UserMenu "alice") /\
  main_nav (snd (Navigation.init Navigation.initial
                   (browser (Some alice_login_collaborator)
                      {[ "mindspend_username" := "<b>alice</b>" ]})))
    = Some (UserMenu "<b>alice</b>").
Proof.
  assert (Hname : forall name, truthy name = true ->
            cached_display_name
              (localStorage (browser (Some alice_login_collaborator)
                               {[ "mindspend_username" := name ]}))
            = Some name).
  { intros name Hn. unfold cached_display_name. simpl.
    rewrite !lookup_singleton_ne by discriminate.
    rewrite lookup_singleton_eq. simpl. by rewrite Hn. }
  split.
  - destruct (init_interpolates_cached_name
                (browser (Some alice_login_collaborator) {[ "mindspend_username" := "alice" ]})
                "alice" (Hname "alice" eq_refl) eq_refl eq_refl) as (_ & Hnav & _).
    exact Hnav.
  - destruct (init_interpolates_cached_name
                (browser (Some alice_login_collaborator)
                   {[ "mindspend_username" := "<b>alice</b>" ]})
                "<b>alice</b>" (Hname "<b>alice</b>" eq_refl) eq_refl eq_refl)
      as (_ & Hnav & _).
    exact Hnav.
Defined.
